(** * openai_mcp: the status and query layer of the MCP demo application

    A shallow embedding of the database managers ([helper_mcp.py]), of the
    direct query page ([helper_mcp_pages.py]) and of the server status check,
    together with the properties claimed about them.

    Python text is a sequence of Unicode code points, so a [str] is a list of
    [N].  Code that talks to a backend is written in a small monad that threads
    a clock and a log of what was sent to the network and to the page. *)

From Stdlib Require Import List NArith ZArith Bool String Ascii DecimalString Lia.
From Stdlib Require Import Sorted Permutation.
Import ListNotations.

Set Implicit Arguments.
Open Scope N_scope.

(* ================================================================== *)
(** * Text *)
(* ================================================================== *)

Definition pystr := list N.

(** Source literals are written as Rocq strings, which hold the UTF-8 bytes
    of the literal; [u] decodes them into code points. *)
Fixpoint utf8_go (need : nat) (acc : N) (bs : list N) : pystr :=
  match bs with
  | [] => []
  | b :: bs' =>
      match need with
      | O =>
          if b <? 128 then b :: utf8_go 0 0 bs'
          else if b <? 224 then utf8_go 1 (b - 192) bs'
          else if b <? 240 then utf8_go 2 (b - 224) bs'
          else utf8_go 3 (b - 240) bs'
      | S O => (acc * 64 + (b - 128)) :: utf8_go 0 0 bs'
      | S n => utf8_go n (acc * 64 + (b - 128)) bs'
      end
  end.

Definition u (s : string) : pystr :=
  utf8_go 0 0 (map N_of_ascii (list_ascii_of_string s)).

Fixpoint pystr_eqb (a b : pystr) : bool :=
  match a, b with
  | [], [] => true
  | c :: a', d :: b' => (c =? d) && pystr_eqb a' b'
  | _, _ => false
  end.

(** [s.startswith(p)] *)
Fixpoint startswith (s p : pystr) : bool :=
  match p, s with
  | [], _ => true
  | c :: p', d :: s' => (c =? d) && startswith s' p'
  | _ :: _, [] => false
  end.

(** [needle in hay] on strings: substring test. *)
Fixpoint py_in (needle hay : pystr) : bool :=
  startswith hay needle
  || match hay with
     | [] => false
     | _ :: hay' => py_in needle hay'
     end.

(** [s[:n]] for a non-negative [n]. *)
Definition slice_to (n : nat) (s : pystr) : pystr := firstn n s.

(** The code points for which [str.isspace] holds; [strip()] and [split()]
    without argument use this set. *)
Definition isspace (c : N) : bool :=
  ((9 <=? c) && (c <=? 13)) || ((28 <=? c) && (c <=? 32))
  || (c =? 133) || (c =? 160) || (c =? 5760)
  || ((8192 <=? c) && (c <=? 8202))
  || (c =? 8232) || (c =? 8233) || (c =? 8239) || (c =? 8287) || (c =? 12288).

Fixpoint lstrip (s : pystr) : pystr :=
  match s with
  | [] => []
  | c :: s' => if isspace c then lstrip s' else s
  end.

Fixpoint rstrip (s : pystr) : pystr :=
  match s with
  | [] => []
  | c :: s' =>
      match rstrip s' with
      | [] => if isspace c then [] else [c]
      | t => c :: t
      end
  end.

(** [s.strip()] *)
Definition strip (s : pystr) : pystr := rstrip (lstrip s).

(** [s.split()]: the maximal runs of non-space characters, left to right.
    [cur] holds the run being read, last character first. *)
Fixpoint split_go (cur : pystr) (s : pystr) : list pystr :=
  match s with
  | [] => match cur with [] => [] | _ => [rev cur] end
  | c :: s' =>
      if isspace c
      then match cur with
           | [] => split_go [] s'
           | _ => rev cur :: split_go [] s'
           end
      else split_go (c :: cur) s'
  end.

Definition split (s : pystr) : list pystr := split_go [] s.

(** Lexicographic order on code points, the order of [sorted] on strings. *)
Fixpoint pystr_leb (a b : pystr) : bool :=
  match a, b with
  | [], _ => true
  | _ :: _, [] => false
  | c :: a', d :: b' => (c <? d) || ((c =? d) && pystr_leb a' b')
  end.

Fixpoint insert_sorted (x : pystr) (l : list pystr) : list pystr :=
  match l with
  | [] => [x]
  | y :: l' => if pystr_leb x y then x :: l else y :: insert_sorted x l'
  end.

(** [sorted(l)] on a list of strings. *)
Definition sorted (l : list pystr) : list pystr :=
  fold_right insert_sorted [] l.

(** [str(z)] for an integer: its decimal digits, after a minus sign when it
    is negative. *)
Definition str_of_Z (z : Z) : pystr :=
  u (NilZero.string_of_int (Z.to_int z)).

(* ================================================================== *)
(** * Exceptions and values *)
(* ================================================================== *)

(** The subclasses of [Exception] the sources can meet.  [LibraryError]
    stands for whatever a client library raises (connection refused, time
    out, bad reply).  [exn_msg] is [str(e)]. *)
Inductive exn_class :=
  IndexError | KeyError | TypeError | AttributeError | ValueError | LibraryError.

Record exn := mk_exn { exn_cls : exn_class; exn_msg : pystr }.

Inductive py_result (A : Type) : Type :=
| Returned (a : A)
| Raised (e : exn).
Arguments Returned {A} a.
Arguments Raised {A} e.

(** A Python dict with string keys, in insertion order. *)
Definition dict (V : Type) := list (pystr * V).

Fixpoint dict_get {V} (k : pystr) (d : dict V) : option V :=
  match d with
  | [] => None
  | (k', v) :: d' => if pystr_eqb k k' then Some v else dict_get k d'
  end.

(** [d[k] = v]: an existing key keeps its place. *)
Fixpoint dict_set {V} (k : pystr) (v : V) (d : dict V) : dict V :=
  match d with
  | [] => [(k, v)]
  | (k', v') :: d' =>
      if pystr_eqb k k' then (k, v) :: d' else (k', v') :: dict_set k v d'
  end.

Definition dict_keys {V} (d : dict V) : list pystr := map fst d.

(** The values that flow through the managers: what [json()] can produce,
    what the Redis client returns, and the entries of the summaries. *)
#[warning="-register-all"]
Inductive pyval :=
| PNone
| PBool (b : bool)
| PInt (z : Z)
| PFloat (repr : pystr)
| PStr (s : pystr)
| PList (l : list pyval)
| PDict (d : list (pystr * pyval)).

Definition type_error : exn := mk_exn TypeError (u "unsupported operand").

(** [v[key]] with a string key. *)
Definition py_getitem (v : pyval) (key : pystr) : py_result pyval :=
  match v with
  | PDict d =>
      match dict_get key d with
      | Some x => Returned x
      | None => Raised (mk_exn KeyError key)
      end
  | _ => Raised type_error
  end.

(** [v.get(key, default)] *)
Definition py_get (v : pyval) (key : pystr) (default : pyval) : py_result pyval :=
  match v with
  | PDict d =>
      match dict_get key d with
      | Some x => Returned x
      | None => Returned default
      end
  | _ => Raised (mk_exn AttributeError (u "get"))
  end.

(** [len(v)] *)
Definition py_len (v : pyval) : py_result Z :=
  match v with
  | PStr s => Returned (Z.of_nat (List.length s))
  | PList l => Returned (Z.of_nat (List.length l))
  | PDict d => Returned (Z.of_nat (List.length d))
  | _ => Raised type_error
  end.

(** The items [for x in v] runs through. *)
Definition py_iter (v : pyval) : py_result (list pyval) :=
  match v with
  | PStr s => Returned (map (fun c => PStr [c]) s)
  | PList l => Returned l
  | PDict d => Returned (map (fun kv => PStr (fst kv)) d)
  | _ => Raised type_error
  end.

(** [l[i]] on a list. *)
Definition py_index {A} (l : list A) (i : nat) : py_result A :=
  match nth_error l i with
  | Some x => Returned x
  | None => Raised (mk_exn IndexError (u "list index out of range"))
  end.

(** What the interpreter supplies and the sources only use: the case mapping
    of the characters outside ASCII ([str.upper] maps one character to one or
    more characters) and [int] applied to a string. *)
Class PyRuntime := {
  unicode_upper : N -> list N;
  py_int : pystr -> py_result Z
}.

Section Upper.
Context {rt : PyRuntime}.

Definition upper_cp (c : N) : list N :=
    if (97 <=? c) && (c <=? 122) then [c - 32]
    else if c <? 128 then [c]
    else unicode_upper c.

(** [s.upper()] *)
Definition upper (s : pystr) : pystr := flat_map upper_cp s.
End Upper.

(* ================================================================== *)
(** * Effects: the network, the page and the clock *)
(* ================================================================== *)

Inductive net_call :=
| RedisPing
| RedisScanNext
| RedisKeys (pattern : pystr)
| RedisGet (key : pystr)
| RedisHgetall (key : pystr)
| RedisSmembers (key : pystr)
| RedisLrange (key : pystr) (start stop : Z)
| PgConnect
| PgReadSql (sql : pystr)
| EsClusterHealth
| EsCount
| QdrantRoot
| QdrantCollections.

(** A result table of [pd.read_sql]: rows of named columns. *)
Definition dataframe := list (dict pyval).

Inductive ui :=
| st_error (msg : pystr)
| st_warning (msg : pystr)
| st_info (msg : pystr)
| st_json (v : pyval)
| st_code (v : pyval)
| st_dataframe (df : dataframe)
| st_download_button (df : dataframe).

(** A network call is logged with the time it was issued and the time it
    came back. *)
Inductive event :=
| Net (c : net_call) (issued returned : N)
| Ui (w : ui).

Record outcome (A : Type) := mk_outcome {
  result : py_result A;
  finish : N;
  events : list event
}.

(** A computation starts at a clock value and yields a result or an
    exception, the clock when it ends and what it did in between. *)
Definition M (A : Type) := N -> outcome A.

Definition ret {A} (a : A) : M A := fun t => mk_outcome (Returned a) t [].

Definition raise {A} (e : exn) : M A := fun t => mk_outcome (Raised e) t [].

Definition bind {A B} (m : M A) (f : A -> M B) : M B :=
  fun t =>
    let o := m t in
    match result o with
    | Returned a =>
        let o' := f a (finish o) in
        mk_outcome (result o') (finish o') (events o ++ events o')
    | Raised e => mk_outcome (Raised e) (finish o) (events o)
    end.

Notation "x <- m ;; k" := (bind m (fun x => k))
  (at level 61, m at next level, right associativity).
Notation "m ;;; k" := (bind m (fun _ => k))
  (at level 61, right associativity).

(** [try: body / except Exception as e: handler e] *)
Definition try_except {A} (body : M A) (handler : exn -> M A) : M A :=
  fun t =>
    let o := body t in
    match result o with
    | Returned a => o
    | Raised e =>
        let o' := handler e (finish o) in
        mk_outcome (result o') (finish o') (events o ++ events o')
    end.

Definition lift {A} (r : py_result A) : M A :=
  fun t => mk_outcome r t [].

Definition show (w : ui) : M unit :=
  fun t => mk_outcome (Returned tt) t [Ui w].

(** ** The outside world

    One value of [world] fixes what every backend answers and how long each
    round trip takes.  [requests] hands back a response with a status code
    and a body that [json()] decodes or fails on. *)
Record http_response := mk_response {
  status_code : Z;
  json : py_result pyval
}.

Record world := mk_world {
  redis_ping : py_result unit;
  (** the keys [r.scan_iter()] yields, and the exception that ends the
      iteration when the connection breaks *)
  redis_scan : list pystr;
  redis_scan_end : option exn;
  redis_keys : pystr -> py_result (list pystr);
  redis_get : pystr -> py_result (option pystr);
  redis_hgetall : pystr -> py_result (dict pystr);
  redis_smembers : pystr -> py_result (list pystr);
  redis_lrange : pystr -> Z -> Z -> py_result (list pystr);
  pg_connect : py_result unit;
  (** [sqlalchemy.create_engine] applied to the manager's [self.conn_str]
      and to [os.getenv('PG_CONN_STR')] *)
  engine_of_conn_str : py_result unit;
  engine_of_getenv : py_result unit;
  read_sql : pystr -> py_result dataframe;
  es_cluster_health : py_result http_response;
  es_count : py_result http_response;
  qdrant_root : py_result http_response;
  qdrant_collections : py_result http_response;
  latency : net_call -> N
}.

(** One round trip: the reply comes from the world, the clock moves on by
    the latency of the call, and the call is logged. *)
Definition call {A} (w : world) (c : net_call) (reply : py_result A) : M A :=
  fun t => mk_outcome reply (t + latency w c) [Net c t (t + latency w c)].

Fixpoint map_result {A B} (f : A -> py_result B) (l : list A) : py_result (list B) :=
  match l with
  | [] => Returned []
  | x :: l' =>
      match f x with
      | Raised e => Raised e
      | Returned y =>
          match map_result f l' with
          | Raised e => Raised e
          | Returned ys => Returned (y :: ys)
          end
      end
  end.

(* ================================================================== *)
(** * helper_mcp.py: the database managers *)
(* ================================================================== *)

(** The dict [{"status": ..., "details": ...}] of [check_connection]. *)
Record conn_status := mk_conn_status { status : pystr; details : pystr }.

Module RedisManager.
Definition name : pystr := u "Redis".

Definition check_connection (w : world) : M conn_status :=
    try_except
      (call w RedisPing (redis_ping w) ;;;
       ret (mk_conn_status (u "🟢 接続OK") (u "正常")))
      (fun e => ret (mk_conn_status (u "🔴 接続NG") (slice_to 50 (exn_msg e)))).

(** The counting loop of [get_data_summary]: [inl d] when the loop leaves
      the function with [return d], [inr count] when the iterator is
      exhausted.  Every item pulled from the iterator is logged. *)
Fixpoint scan_loop (w : world) (items : list pystr) (count : Z)
    : M (dict pyval + Z) :=
    match items with
    | [] =>
        match redis_scan_end w with
        | Some e => call w RedisScanNext (Raised e)
        | None => ret (inr count)
        end
    | _ :: items' =>
        call w RedisScanNext (Returned tt) ;;;
        let count := (count + 1)%Z in
        if (1000 <? count)%Z
        then ret (inl [(u "key_count", PStr (str_of_Z count ++ u "+"));
                       (u "status", PStr (u "partial"))])
        else scan_loop w items' count
    end.

(** The [try] block of [get_data_summary]. *)
Definition get_data_summary_try (w : world) : M (dict pyval) :=
    r <- scan_loop w (redis_scan w) 0%Z ;;
    match r with
    | inl partial => ret partial
    | inr count =>
        sessions <- call w (RedisKeys (u "session:*")) (redis_keys w (u "session:*")) ;;
        counters <- call w (RedisKeys (u "counter:*")) (redis_keys w (u "counter:*")) ;;
        ret [(u "key_count", PStr (str_of_Z count));
             (u "status", PStr (u "complete"));
             (u "session_count", PInt (Z.of_nat (List.length sessions)));
             (u "counter_count", PInt (Z.of_nat (List.length counters)))]
    end.

Definition get_data_summary (w : world) : M (dict pyval) :=
    try_except (get_data_summary_try w)
      (fun _ => ret [(u "key_count", PStr (u "?")); (u "status", PStr (u "error"))]).
End RedisManager.

Module PostgreSQLManager.
Definition name : pystr := u "PostgreSQL".

Definition check_connection (w : world) : M conn_status :=
    try_except
      (call w PgConnect (pg_connect w) ;;;
       ret (mk_conn_status (u "🟢 接続OK") (u "正常")))
      (fun e => ret (mk_conn_status (u "🔴 接続NG") (slice_to 50 (exn_msg e)))).

(** [pd.read_sql(sql, engine).iloc[0]['count']] *)
Definition first_count (w : world) (sql : pystr) : M pyval :=
    df <- call w (PgReadSql sql) (read_sql w sql) ;;
    match df with
    | [] => raise (mk_exn IndexError (u "single positional indexer is out-of-bounds"))
    | row :: _ =>
        match dict_get (u "count") row with
        | Some v => ret v
        | None => raise (mk_exn KeyError (u "count"))
        end
    end.

(** The [try] block of [get_data_summary]. *)
Definition get_data_summary_try (w : world) : M (dict pyval) :=
    lift (engine_of_conn_str w) ;;;
    customers <- first_count w (u "SELECT COUNT(*) as count FROM customers") ;;
    orders <- first_count w (u "SELECT COUNT(*) as count FROM orders") ;;
    products <- first_count w (u "SELECT COUNT(*) as count FROM products") ;;
    ret [(u "table_count", PInt 3);
         (u "customers", customers);
         (u "orders", orders);
         (u "products", products);
         (u "status", PStr (u "complete"))].

Definition get_data_summary (w : world) : M (dict pyval) :=
    try_except (get_data_summary_try w)
      (fun _ => ret [(u "table_count", PStr (u "?")); (u "status", PStr (u "error"))]).
End PostgreSQLManager.

Module ElasticsearchManager.
Definition name : pystr := u "Elasticsearch".

Definition check_connection (w : world) : M conn_status :=
    try_except
      (response <- call w EsClusterHealth (es_cluster_health w) ;;
       if (status_code response =? 200)%Z
       then ret (mk_conn_status (u "🟢 接続OK") (u "正常"))
       else ret (mk_conn_status (u "🔴 接続NG")
                   (u "Status: " ++ str_of_Z (status_code response))))
      (fun e => ret (mk_conn_status (u "🔴 接続NG") (slice_to 50 (exn_msg e)))).

(** The [try] block of [get_data_summary]. *)
Definition get_data_summary_try (w : world) : M (dict pyval) :=
    response <- call w EsCount (es_count w) ;;
    if (status_code response =? 200)%Z
    then
      body <- lift (json response) ;;
      count <- lift (py_getitem body (u "count")) ;;
      ret [(u "document_count", count); (u "status", PStr (u "complete"))]
    else ret [(u "document_count", PStr (u "?")); (u "status", PStr (u "error"))].

Definition get_data_summary (w : world) : M (dict pyval) :=
    try_except (get_data_summary_try w)
      (fun _ => ret [(u "document_count", PStr (u "?")); (u "status", PStr (u "error"))]).
End ElasticsearchManager.

Module QdrantManager.
Definition name : pystr := u "Qdrant".

Definition check_connection (w : world) : M conn_status :=
    try_except
      (response <- call w QdrantRoot (qdrant_root w) ;;
       if (status_code response =? 200)%Z
       then ret (mk_conn_status (u "🟢 接続OK") (u "正常"))
       else ret (mk_conn_status (u "🔴 接続NG")
                   (u "Status: " ++ str_of_Z (status_code response))))
      (fun e => ret (mk_conn_status (u "🔴 接続NG") (slice_to 50 (exn_msg e)))).

(** The [try] block of [get_data_summary]. *)
Definition get_data_summary_try (w : world) : M (dict pyval) :=
    response <- call w QdrantCollections (qdrant_collections w) ;;
    if (status_code response =? 200)%Z
    then
      body <- lift (json response) ;;
      res <- lift (py_get body (u "result") (PDict [])) ;;
      collections <- lift (py_get res (u "collections") (PList [])) ;;
      n <- lift (py_len collections) ;;
      cols <- lift (py_iter collections) ;;
      names <- lift (map_result (fun col => py_getitem col (u "name")) cols) ;;
      ret [(u "collection_count", PInt n);
           (u "collections", PList names);
           (u "status", PStr (u "complete"))]
    else ret [(u "collection_count", PStr (u "?")); (u "status", PStr (u "error"))].

Definition get_data_summary (w : world) : M (dict pyval) :=
    try_except (get_data_summary_try w)
      (fun _ => ret [(u "collection_count", PStr (u "?")); (u "status", PStr (u "error"))]).
End QdrantManager.

(** The four subclasses of [DatabaseManager]; calling a method on a manager
    dispatches on its class. *)
Inductive manager :=
  ARedisManager | APostgreSQLManager | AnElasticsearchManager | AQdrantManager.

Definition check_connection (w : world) (m : manager) : M conn_status :=
  match m with
  | ARedisManager => RedisManager.check_connection w
  | APostgreSQLManager => PostgreSQLManager.check_connection w
  | AnElasticsearchManager => ElasticsearchManager.check_connection w
  | AQdrantManager => QdrantManager.check_connection w
  end.

Definition get_data_summary (w : world) (m : manager) : M (dict pyval) :=
  match m with
  | ARedisManager => RedisManager.get_data_summary w
  | APostgreSQLManager => PostgreSQLManager.get_data_summary w
  | AnElasticsearchManager => ElasticsearchManager.get_data_summary w
  | AQdrantManager => QdrantManager.get_data_summary w
  end.

Definition get_data_summary_try (w : world) (m : manager) : M (dict pyval) :=
  match m with
  | ARedisManager => RedisManager.get_data_summary_try w
  | APostgreSQLManager => PostgreSQLManager.get_data_summary_try w
  | AnElasticsearchManager => ElasticsearchManager.get_data_summary_try w
  | AQdrantManager => QdrantManager.get_data_summary_try w
  end.

(** The network call a manager's [check_connection] issues. *)
Definition probe_call (m : manager) : net_call :=
  match m with
  | ARedisManager => RedisPing
  | APostgreSQLManager => PgConnect
  | AnElasticsearchManager => EsClusterHealth
  | AQdrantManager => QdrantRoot
  end.

(** The test the pages and [get_connected_count] apply to a status. *)
Definition connected (s : conn_status) : bool := py_in (u "🟢") (status s).

Module ServerStatusManager.
(** [self.managers], in the order the dict literal lists them. *)
Definition managers : dict manager :=
    [(u "Redis", ARedisManager);
     (u "PostgreSQL", APostgreSQLManager);
     (u "Elasticsearch", AnElasticsearchManager);
     (u "Qdrant", AQdrantManager)].

(** The loop of [check_all_servers] over [managers.items()]. *)
Fixpoint check_loop (w : world) (ms : dict manager) (status : dict conn_status)
    : M (dict conn_status) :=
    match ms with
    | [] => ret status
    | (name, m) :: ms' =>
        s <- check_connection w m ;;
        check_loop w ms' (dict_set name s status)
    end.

(** The body of [check_all_servers]; the [st.cache_data(ttl=30)] decorator
      around it hands out this body's return value, fresh or stored. *)
Definition check_all_servers (w : world) : M (dict conn_status) :=
    check_loop w managers [].

(** [sum(1 for s in status.values() if "🟢" in s["status"])] *)
Definition get_connected_count (status : dict conn_status) : nat :=
    List.length (filter (fun kv => connected (snd kv)) status).

Definition get_manager (name : pystr) : option manager :=
    dict_get name managers.
End ServerStatusManager.

(* ================================================================== *)
(** * helper_mcp_pages.py: the direct query page *)
(* ================================================================== *)

Module DirectQueryPage.
Section WithRuntime.
Context {rt : PyRuntime}.

(** [_execute_redis_command(self, redis_client, command)] *)
Definition _execute_redis_command (w : world) (command : pystr) : M pyval :=
    let cmd_parts := split (strip command) in
    first <- lift (py_index cmd_parts 0) ;;
    let cmd := upper first in
    if pystr_eqb cmd (u "KEYS") then
      pattern <- (if (1 <? List.length cmd_parts)%nat
                  then lift (py_index cmd_parts 1)
                  else ret (u "*")) ;;
      found <- call w (RedisKeys pattern) (redis_keys w pattern) ;;
      ret (PList (map PStr (sorted found)))
    else if pystr_eqb cmd (u "GET") then
      if (1 <? List.length cmd_parts)%nat then
        key <- lift (py_index cmd_parts 1) ;;
        v <- call w (RedisGet key) (redis_get w key) ;;
        ret (match v with Some s => PStr s | None => PNone end)
      else
        show (st_error (u "GET コマンドにはキーを指定してください")) ;;;
        ret PNone
    else if pystr_eqb cmd (u "HGETALL") then
      if (1 <? List.length cmd_parts)%nat then
        key <- lift (py_index cmd_parts 1) ;;
        h <- call w (RedisHgetall key) (redis_hgetall w key) ;;
        ret (PDict (map (fun kv => (fst kv, PStr (snd kv))) h))
      else
        show (st_error (u "HGETALL コマンドにはキーを指定してください")) ;;;
        ret PNone
    else if pystr_eqb cmd (u "SMEMBERS") then
      if (1 <? List.length cmd_parts)%nat then
        key <- lift (py_index cmd_parts 1) ;;
        members <- call w (RedisSmembers key) (redis_smembers w key) ;;
        ret (PList (map PStr (sorted members)))
      else
        show (st_error (u "SMEMBERS コマンドにはキーを指定してください")) ;;;
        ret PNone
    else if pystr_eqb cmd (u "LRANGE") then
      if (4 <=? List.length cmd_parts)%nat then
        key <- lift (py_index cmd_parts 1) ;;
        a <- lift (py_index cmd_parts 2) ;;
        start <- lift (py_int a) ;;
        b <- lift (py_index cmd_parts 3) ;;
        stop <- lift (py_int b) ;;
        items <- call w (RedisLrange key start stop) (redis_lrange w key start stop) ;;
        ret (PList (map PStr items))
      else
        show (st_error (u "LRANGE コマンドの形式: LRANGE key start stop")) ;;;
        ret PNone
    else
      show (st_error (u "サポートされていないコマンドです: " ++ cmd)) ;;;
      show (st_info (u "サポートされているコマンド: KEYS, GET, HGETALL, SMEMBERS, LRANGE")) ;;;
      ret PNone.

(** What [_render_redis_query] does once the run button is pressed, with
      [redis_command] the content of the input box.  [st.code] receives
      [str(result)]; the log keeps the value. *)
Definition _render_redis_query (w : world) (redis_command : pystr) : M unit :=
    checked <- RedisManager.check_connection w ;;
    if py_in (u "🟢") (status checked)
    then
      try_except
        (result <- _execute_redis_command w redis_command ;;
         match result with
         | PNone => ret tt
         | PList _ => show (st_json result)
         | _ => show (st_code result)
         end)
        (fun e => show (st_error (u "エラー: " ++ exn_msg e)))
    else show (st_warning (u "Redis サーバーに接続できません")).

(** What [_render_postgresql_query] does once the run button is pressed,
      with [sql_query] the content of the text area.  [engine.dispose()]
      closes a local pool and leaves no trace. *)
Definition _render_postgresql_query (w : world) (sql_query : pystr) : M unit :=
    checked <- PostgreSQLManager.check_connection w ;;
    if py_in (u "🟢") (status checked)
    then
      try_except
        (if negb (startswith (upper (strip sql_query)) (u "SELECT"))
         then show (st_error (u "安全性のため、SELECTクエリのみ実行できます"))
         else
           lift (engine_of_getenv w) ;;;
           df <- call w (PgReadSql sql_query) (read_sql w sql_query) ;;
           if (0 <? List.length df)%nat
           then show (st_dataframe df) ;;; show (st_download_button df)
           else show (st_info (u "クエリの結果は空でした")))
        (fun e => show (st_error (u "エラー: " ++ exn_msg e)))
    else show (st_warning (u "PostgreSQL サーバーに接続できません")).
End WithRuntime.
End DirectQueryPage.

(* ================================================================== *)
(** * a_mcp_sample.py: the same query box, written at module level *)
(* ================================================================== *)

Module a_mcp_sample.
Section WithRuntime.
Context {rt : PyRuntime}.

(** What the script does under the PostgreSQL query type once the run
    button [pg_exec] is pressed.  [status] is the dict the cached
    [check_server_status()] returned when the script started. *)
Definition pg_exec (status : dict pystr) (w : world) (sql_query : pystr) : M unit :=
    if py_in (u "🟢")
         (match dict_get (u "PostgreSQL") status with Some s => s | None => [] end)
    then
      try_except
        (if negb (startswith (upper (strip sql_query)) (u "SELECT"))
         then show (st_error (u "安全性のため、SELECTクエリのみ実行できます"))
         else
           lift (engine_of_getenv w) ;;;
           df <- call w (PgReadSql sql_query) (read_sql w sql_query) ;;
           if (0 <? List.length df)%nat
           then show (st_dataframe df) ;;; show (st_download_button df)
           else show (st_info (u "クエリの結果は空でした")))
        (fun e => show (st_error (u "エラー: " ++ exn_msg e)))
    else show (st_warning (u "PostgreSQL サーバーに接続できません")).
End WithRuntime.
End a_mcp_sample.

(** A runtime to run the model on ASCII text: characters outside ASCII are
    taken as caseless, and [int] reads an optional sign and decimal digits. *)
Fixpoint digits_value (s : pystr) (acc : Z) : option Z :=
  match s with
  | [] => Some acc
  | c :: s' =>
      if (48 <=? c) && (c <=? 57)
      then digits_value s' (acc * 10 + Z.of_N (c - 48))%Z
      else None
  end.

Definition ascii_int (s : pystr) : py_result Z :=
  let bad := Raised (mk_exn ValueError (u "invalid literal for int() with base 10")) in
  match s with
  | [] => bad
  | c :: s' =>
      if c =? 45 then
        match s' with
        | [] => bad
        | _ => match digits_value s' 0 with Some z => Returned (- z)%Z | None => bad end
        end
      else if c =? 43 then
        match s' with
        | [] => bad
        | _ => match digits_value s' 0 with Some z => Returned z | None => bad end
        end
      else match digits_value s 0 with Some z => Returned z | None => bad end
  end.

Definition ascii_runtime : PyRuntime :=
  {| unicode_upper := fun c => [c]; py_int := ascii_int |}.

(** A world in which every backend is up and holds the demo data. *)
Definition ok_response (body : pyval) : py_result http_response :=
  Returned (mk_response 200 (Returned body)).

Definition demo_world : world :=
  {| redis_ping := Returned tt;
     redis_scan := [u "session:1"; u "counter:views"; u "categories:all"];
     redis_scan_end := None;
     redis_keys := fun pat =>
       Returned (if pystr_eqb pat (u "session:*") then [u "session:1"]
                 else if pystr_eqb pat (u "counter:*") then [u "counter:views"]
                 else [u "session:1"; u "counter:views"; u "categories:all"]);
     redis_get := fun _ => Returned None;
     redis_hgetall := fun _ => Returned [];
     redis_smembers := fun _ => Returned [u "Sports"; u "Books"];
     redis_lrange := fun _ _ _ => Returned [];
     pg_connect := Returned tt;
     engine_of_conn_str := Returned tt;
     engine_of_getenv := Returned tt;
     read_sql := fun _ => Returned [[(u "count", PInt 5)]];
     es_cluster_health := ok_response (PDict []);
     es_count := ok_response (PDict [(u "count", PInt 7)]);
     qdrant_root := ok_response (PDict []);
     qdrant_collections := ok_response (PDict []);
     latency := fun _ => 1 |}.

(** Worlds that differ from a given one in the answers to the probes, in
    the latencies, or in what the key-value store holds. *)
Definition with_probes (rp pc : py_result unit) (eh qr : py_result http_response)
  (w : world) : world :=
  {| redis_ping := rp; redis_scan := redis_scan w;
     redis_scan_end := redis_scan_end w; redis_keys := redis_keys w;
     redis_get := redis_get w; redis_hgetall := redis_hgetall w;
     redis_smembers := redis_smembers w; redis_lrange := redis_lrange w;
     pg_connect := pc;
     engine_of_conn_str := engine_of_conn_str w;
     engine_of_getenv := engine_of_getenv w; read_sql := read_sql w;
     es_cluster_health := eh; es_count := es_count w;
     qdrant_root := qr; qdrant_collections := qdrant_collections w;
     latency := latency w |}.

Definition with_latency (f : net_call -> N) (w : world) : world :=
  {| redis_ping := redis_ping w; redis_scan := redis_scan w;
     redis_scan_end := redis_scan_end w; redis_keys := redis_keys w;
     redis_get := redis_get w; redis_hgetall := redis_hgetall w;
     redis_smembers := redis_smembers w; redis_lrange := redis_lrange w;
     pg_connect := pg_connect w;
     engine_of_conn_str := engine_of_conn_str w;
     engine_of_getenv := engine_of_getenv w; read_sql := read_sql w;
     es_cluster_health := es_cluster_health w; es_count := es_count w;
     qdrant_root := qdrant_root w; qdrant_collections := qdrant_collections w;
     latency := f |}.

Definition with_scan (items : list pystr) (w : world) : world :=
  {| redis_ping := redis_ping w; redis_scan := items;
     redis_scan_end := redis_scan_end w; redis_keys := redis_keys w;
     redis_get := redis_get w; redis_hgetall := redis_hgetall w;
     redis_smembers := redis_smembers w; redis_lrange := redis_lrange w;
     pg_connect := pg_connect w;
     engine_of_conn_str := engine_of_conn_str w;
     engine_of_getenv := engine_of_getenv w; read_sql := read_sql w;
     es_cluster_health := es_cluster_health w; es_count := es_count w;
     qdrant_root := qdrant_root w; qdrant_collections := qdrant_collections w;
     latency := latency w |}.

Definition refused : exn := mk_exn LibraryError (u "Connection refused").

(** The demo world with the relational database down. *)
Definition pg_down : world :=
  with_probes (Returned tt) (Raised refused)
    (es_cluster_health demo_world) (qdrant_root demo_world) demo_world.

(** The demo world with a key-value store whose ping fails with an exception
    that carries no message, [str(e) == ""]. *)
Definition redis_silent : world :=
  with_probes (Raised (mk_exn LibraryError [])) (Returned tt)
    (es_cluster_health demo_world) (qdrant_root demo_world) demo_world.

(** The demo world with every probe taking three time units. *)
Definition slow_world : world := with_latency (fun _ => 3) demo_world.

(** The demo world with 1001 keys in the key-value store. *)
Definition big_store : world := with_scan (repeat (u "k") 1001) demo_world.

(* ================================================================== *)
(** * Reading a log *)
(* ================================================================== *)

Definition net_calls (l : list event) : list net_call :=
  flat_map (fun e => match e with Net c _ _ => [c] | Ui _ => [] end) l.

Definition shown (l : list event) : list ui :=
  flat_map (fun e => match e with Net _ _ _ => [] | Ui x => [x] end) l.

(** What a probe was answered: an exception, or a plain success, or an HTTP
    status code. *)
Definition probe_reply (w : world) (m : manager) : py_result (option Z) :=
  match m with
  | ARedisManager =>
      match redis_ping w with Returned _ => Returned None | Raised e => Raised e end
  | APostgreSQLManager =>
      match pg_connect w with Returned _ => Returned None | Raised e => Raised e end
  | AnElasticsearchManager =>
      match es_cluster_health w with
      | Returned r => Returned (Some (status_code r))
      | Raised e => Raised e
      end
  | AQdrantManager =>
      match qdrant_root w with
      | Returned r => Returned (Some (status_code r))
      | Raised e => Raised e
      end
  end.

(** A probe fails when it raises or when the HTTP status is not 200. *)
Definition probe_fails (w : world) (m : manager) : bool :=
  match probe_reply w m with
  | Raised _ => true
  | Returned None => false
  | Returned (Some code) => negb (code =? 200)%Z
  end.

(** The status codes an HTTP client hands out have three digits. *)
Definition status_codes_in_range (w : world) : Prop :=
  forall m code, probe_reply w m = Returned (Some code) -> (100 <= code <= 999)%Z.

(** The messages of the query page. *)
Definition select_only : ui :=
  st_error (u "安全性のため、SELECTクエリのみ実行できます").
Definition pg_unavailable : ui :=
  st_warning (u "PostgreSQL サーバーに接続できません").
Definition unsupported (cmd : pystr) : ui :=
  st_error (u "サポートされていないコマンドです: " ++ cmd).
Definition supported_list : ui :=
  st_info (u "サポートされているコマンド: KEYS, GET, HGETALL, SMEMBERS, LRANGE").

Section Readings.
Context {rt : PyRuntime}.

(** The first whitespace-separated token, compared without regard to case,
    is SELECT. *)
Definition first_token_is_select (sql : pystr) : bool :=
  match split sql with
  | first :: _ => pystr_eqb (upper first) (u "SELECT")
  | [] => false
  end.

(** The test the page applies instead. *)
Definition starts_with_select (sql : pystr) : bool :=
  startswith (upper (strip sql)) (u "SELECT").

(** The verbs [_execute_redis_command] knows. *)
Definition known_verb (cmd : pystr) : bool :=
  pystr_eqb cmd (u "KEYS") || pystr_eqb cmd (u "GET") || pystr_eqb cmd (u "HGETALL")
  || pystr_eqb cmd (u "SMEMBERS") || pystr_eqb cmd (u "LRANGE").
End Readings.

(** The status a manager derives from the answer to its probe. *)
Definition status_of_reply (r : py_result (option Z)) : conn_status :=
  match r with
  | Raised e => mk_conn_status (u "🔴 接続NG") (slice_to 50 (exn_msg e))
  | Returned None => mk_conn_status (u "🟢 接続OK") (u "正常")
  | Returned (Some code) =>
      if (code =? 200)%Z
      then mk_conn_status (u "🟢 接続OK") (u "正常")
      else mk_conn_status (u "🔴 接続NG") (u "Status: " ++ str_of_Z code)
  end.

(** The latency of the slowest probe. *)
Definition slowest_probe (w : world) : N :=
  fold_right (fun nm acc => N.max (latency w (probe_call (snd nm))) acc) 0
    ServerStatusManager.managers.

(** The demo world with a search engine that answers 503. *)
Definition es_unavailable : world :=
  with_probes (Returned tt) (Returned tt)
    (Returned (mk_response 503 (Returned PNone))) (qdrant_root demo_world) demo_world.

(** Runs a computation whose last backend call is an application of
    [reply], by cases on what the backend answers. *)
Ltac run_out reply :=
  unfold bind, lift, call, ret, show;
  cbn [Nat.ltb Nat.leb List.length py_index nth_error hd result finish events app];
  try match goal with
      | |- context [reply ?k] => destruct (reply k)
      end;
  reflexivity.

(* ================================================================== *)
(** * helper_mcp.py: the users of the status check *)
(* ================================================================== *)

(** [ServerStatusManager.get_connected_count(self)]: the status check
    followed by the count of the connected entries. *)
Definition get_connected_count (w : world) : M nat :=
  snapshot <- ServerStatusManager.check_all_servers w ;;
  ret (ServerStatusManager.get_connected_count snapshot).

(** [check_all_servers] as its callers reach it, through
    [@st.cache_data(ttl=30)]: a call either runs the body, or is handed the
    stored return value of an earlier run that is not older than the time to
    live, and then the body does not run and no probe is made.  [stored] is
    the value the cache hands out, when it hands out one. *)
Definition check_all_servers_cached (stored : option (dict conn_status))
  (w : world) : M (dict conn_status) :=
  match stored with
  | Some snapshot => ret snapshot
  | None => ServerStatusManager.check_all_servers w
  end.

Module AIChatPage.
(** The text of the code block [_check_servers] shows. *)
Definition start_instructions : pystr :=
    u "
# MCPサーバーを起動
docker-compose -f docker-compose.mcp-demo.yml up -d redis-mcp postgres-mcp es-mcp qdrant-mcp
            ".

(** The warning [_check_servers] shows. *)
Definition servers_missing : pystr :=
    u "⚠️ 一部のサーバーに接続できません。MCPサーバーを起動してください。".

(** [_check_servers(self)] *)
Definition _check_servers (stored : option (dict conn_status)) (w : world)
  : M bool :=
    snapshot <- check_all_servers_cached stored w ;;
    let servers_ready :=
      forallb (fun kv => py_in (u "🟢") (status (snd kv))) snapshot in
    if negb servers_ready
    then
      show (st_warning servers_missing) ;;;
      show (st_code (PStr start_instructions)) ;;;
      ret false
    else ret true.
End AIChatPage.

Module MCPSessionManager.
(** [if key not in st.session_state: st.session_state.key = value] *)
Definition unless_set (key : pystr) (value : pyval) (session_state : dict pyval)
  : dict pyval :=
    match dict_get key session_state with
    | Some _ => session_state
    | None => dict_set key value session_state
    end.

(** [init_session()], as a function of the session state it updates. *)
Definition init_session (session_state : dict pyval) : dict pyval :=
    let s := unless_set (u "messages") (PList []) session_state in
    let s := unless_set (u "selected_tab_index") (PInt 0) s in
    let s := unless_set (u "auto_process_question") (PBool false) s in
    let s := unless_set (u "server_status_cache") (PDict []) s in
    unless_set (u "last_status_check") (PInt 0) s.

(** The keys [init_session] looks after. *)
Definition session_keys : list pystr :=
    [u "messages"; u "selected_tab_index"; u "auto_process_question";
     u "server_status_cache"; u "last_status_check"].
End MCPSessionManager.

(* ================================================================== *)
(** * a_mcp_sample.py: the status check and the key count of the script *)
(* ================================================================== *)

Module a_mcp_sample_status.
(** [check_server_status()].  The script connects to PostgreSQL with
    [os.getenv('PG_CONN_STR')] where the manager uses [self.conn_str];
    [pg_reply] is what that connection attempt is answered.  The body under
    the [st.cache_data(ttl=30)] decorator is modelled. *)
Definition check_server_status (w : world) (pg_reply : py_result unit)
  : M (dict pystr) :=
    let status := [] in
    status <- try_except
                (call w RedisPing (redis_ping w) ;;;
                 ret (dict_set (u "Redis") (u "🟢 接続OK") status))
                (fun e => ret (dict_set (u "Redis")
                   (u "🔴 接続NG (" ++ slice_to 20 (exn_msg e) ++ u "...)") status)) ;;
    status <- try_except
                (call w PgConnect pg_reply ;;;
                 ret (dict_set (u "PostgreSQL") (u "🟢 接続OK") status))
                (fun e => ret (dict_set (u "PostgreSQL")
                   (u "🔴 接続NG (" ++ slice_to 20 (exn_msg e) ++ u "...)") status)) ;;
    status <- try_except
                (response <- call w EsClusterHealth (es_cluster_health w) ;;
                 if (status_code response =? 200)%Z
                 then ret (dict_set (u "Elasticsearch") (u "🟢 接続OK") status)
                 else ret (dict_set (u "Elasticsearch")
                        (u "🔴 接続NG (Status: " ++ str_of_Z (status_code response) ++ u ")")
                        status))
                (fun e => ret (dict_set (u "Elasticsearch")
                   (u "🔴 接続NG (" ++ slice_to 20 (exn_msg e) ++ u "...)") status)) ;;
    try_except
      (response <- call w QdrantRoot (qdrant_root w) ;;
       if (status_code response =? 200)%Z
       then ret (dict_set (u "Qdrant") (u "🟢 接続OK") status)
       else ret (dict_set (u "Qdrant")
              (u "🔴 接続NG (Status: " ++ str_of_Z (status_code response) ++ u ")")
              status))
      (fun e => ret (dict_set (u "Qdrant")
         (u "🔴 接続NG (" ++ slice_to 20 (exn_msg e) ++ u "...)") status)).

(** [status.get(name, '')] *)
Definition status_get (name : pystr) (status : dict pystr) : pystr :=
    match dict_get name status with Some s => s | None => [] end.


(** The counting loop of [get_redis_key_count]: [inl text] when the loop
    leaves the function with [return text], [inr count] when the iterator is
    exhausted. *)
Fixpoint count_loop (w : world) (items : list pystr) (count : Z)
    : M (pystr + Z) :=
    match items with
    | [] =>
        match redis_scan_end w with
        | Some e => call w RedisScanNext (Raised e)
        | None => ret (inr count)
        end
    | _ :: items' =>
        call w RedisScanNext (Returned tt) ;;;
        let count := (count + 1)%Z in
        if (1000 <? count)%Z
        then ret (inl (str_of_Z count ++ u "+"))
        else count_loop w items' count
    end.

(** [get_redis_key_count()], the body under its cache decorator. *)
Definition get_redis_key_count (w : world) : M pystr :=
    try_except
      (call w RedisPing (redis_ping w) ;;;
       r <- count_loop w (redis_scan w) 0%Z ;;
       match r with
       | inl text => ret text
       | inr count => ret (str_of_Z count)
       end)
      (fun _ => ret (u "?")).
End a_mcp_sample_status.

Module a_mcp_sample_redis.
Section WithRuntime.
Context {rt : PyRuntime}.

(** What the script does under the Redis query type once the run button
    [redis_exec] is pressed.  [status] is the dict of the cached status
    check; [st.code] receives [str(result)], the log keeps the value. *)
Definition redis_exec (status : dict pystr) (w : world) (redis_command : pystr)
  : M unit :=
    if py_in (u "🟢") (a_mcp_sample_status.status_get (u "Redis") status)
    then
      try_except
        (let cmd_parts := split (strip redis_command) in
         first <- lift (py_index cmd_parts 0) ;;
         let cmd := upper first in
         if pystr_eqb cmd (u "KEYS") then
           pattern <- (if (1 <? List.length cmd_parts)%nat
                       then lift (py_index cmd_parts 1)
                       else ret (u "*")) ;;
           found <- call w (RedisKeys pattern) (redis_keys w pattern) ;;
           show (st_json (PList (map PStr (sorted found))))
         else if pystr_eqb cmd (u "GET") then
           if (1 <? List.length cmd_parts)%nat then
             key <- lift (py_index cmd_parts 1) ;;
             v <- call w (RedisGet key) (redis_get w key) ;;
             show (st_code (match v with Some s => PStr s | None => PNone end))
           else
             show (st_error (u "GET コマンドにはキーを指定してください"))
         else if pystr_eqb cmd (u "HGETALL") then
           if (1 <? List.length cmd_parts)%nat then
             key <- lift (py_index cmd_parts 1) ;;
             h <- call w (RedisHgetall key) (redis_hgetall w key) ;;
             show (st_json (PDict (map (fun kv => (fst kv, PStr (snd kv))) h)))
           else
             show (st_error (u "HGETALL コマンドにはキーを指定してください"))
         else if pystr_eqb cmd (u "SMEMBERS") then
           if (1 <? List.length cmd_parts)%nat then
             key <- lift (py_index cmd_parts 1) ;;
             members <- call w (RedisSmembers key) (redis_smembers w key) ;;
             show (st_json (PList (map PStr (sorted members))))
           else
             show (st_error (u "SMEMBERS コマンドにはキーを指定してください"))
         else if pystr_eqb cmd (u "LRANGE") then
           if (4 <=? List.length cmd_parts)%nat then
             key <- lift (py_index cmd_parts 1) ;;
             a <- lift (py_index cmd_parts 2) ;;
             start <- lift (py_int a) ;;
             b <- lift (py_index cmd_parts 3) ;;
             stop <- lift (py_int b) ;;
             items <- call w (RedisLrange key start stop) (redis_lrange w key start stop) ;;
             show (st_json (PList (map PStr items)))
           else
             show (st_error (u "LRANGE コマンドの形式: LRANGE key start stop"))
         else
           show (st_error (u "サポートされていないコマンドです: " ++ cmd)) ;;;
           show (st_info (u "サポートされているコマンド: KEYS, GET, HGETALL, SMEMBERS, LRANGE")))
        (fun e => show (st_error (u "エラー: " ++ exn_msg e)))
    else show (st_warning (u "Redis サーバーに接続できません")).
End WithRuntime.
End a_mcp_sample_redis.

(** The four managers, in registration order. *)
Definition all_managers : list manager :=
  [ARedisManager; APostgreSQLManager; AnElasticsearchManager; AQdrantManager].

(** The three counting queries of the relational summary. *)
Definition count_customers : pystr := u "SELECT COUNT(*) as count FROM customers".
Definition count_orders : pystr := u "SELECT COUNT(*) as count FROM orders".
Definition count_products : pystr := u "SELECT COUNT(*) as count FROM products".

(** What [pd.read_sql(sql, engine).iloc[0]['count']] evaluates to, when the
    query runs, has a first row and that row has the column. *)
Definition first_count_value (w : world) (sql : pystr) : option pyval :=
  match read_sql w sql with
  | Returned (row :: _) => dict_get (u "count") row
  | _ => None
  end.

(** Ascending order of strings, as [sorted] leaves them. *)
Definition ascending (l : list pystr) : Prop :=
  StronglySorted (fun a b => pystr_leb a b = true) l.

(** What [_render_redis_query] shows for an outcome of the executor. *)
Definition page_display (r : py_result pyval) : list event :=
  match r with
  | Raised e => [Ui (st_error (u "エラー: " ++ exn_msg e))]
  | Returned PNone => []
  | Returned (PList l) => [Ui (st_json (PList l))]
  | Returned v => [Ui (st_code v)]
  end.

(** The upper-cased first token of a command, when it has one. *)
Definition verb_of {rt : PyRuntime} (command : pystr) : option pystr :=
  match split (strip command) with
  | first :: _ => Some (upper first)
  | [] => None
  end.

(** The status text the script derives from the answer to a probe. *)
Definition script_status_of_reply (r : py_result (option Z)) : pystr :=
  match r with
  | Raised e => u "🔴 接続NG (" ++ slice_to 20 (exn_msg e) ++ u "...)"
  | Returned None => u "🟢 接続OK"
  | Returned (Some code) =>
      if (code =? 200)%Z
      then u "🟢 接続OK"
      else u "🔴 接続NG (Status: " ++ str_of_Z code ++ u ")"
  end.


(** The demo world with a key-value store whose ping fails with a message
    that begins with the green mark. *)
Definition redis_green_failure : world :=
  with_probes (Raised (mk_exn LibraryError (u "🟢 not really"))) (Returned tt)
    (es_cluster_health demo_world) (qdrant_root demo_world) demo_world.

(** A world whose vector store answers the collection listing with the
    given names. *)
Definition with_collections (names : list pystr) (w : world) : world :=
  {| redis_ping := redis_ping w; redis_scan := redis_scan w;
     redis_scan_end := redis_scan_end w; redis_keys := redis_keys w;
     redis_get := redis_get w; redis_hgetall := redis_hgetall w;
     redis_smembers := redis_smembers w; redis_lrange := redis_lrange w;
     pg_connect := pg_connect w;
     engine_of_conn_str := engine_of_conn_str w;
     engine_of_getenv := engine_of_getenv w; read_sql := read_sql w;
     es_cluster_health := es_cluster_health w; es_count := es_count w;
     qdrant_root := qdrant_root w;
     qdrant_collections :=
       ok_response
         (PDict [(u "result",
                  PDict [(u "collections",
                          PList (map (fun n => PDict [(u "name", PStr n)]) names))])]);
     latency := latency w |}.

(* ================================================================== *)
(** * Facts about text *)
(* ================================================================== *)

Unset Implicit Arguments.

Lemma startswith_nil_r (s : pystr) : startswith s [] = true.
Proof. destruct s; reflexivity. Qed.

Lemma startswith_app (p r : pystr) : startswith (p ++ r) p = true.
Proof.
  induction p as [|c p IH]; simpl; [apply startswith_nil_r|].
  now rewrite N.eqb_refl, IH.
Qed.

Lemma startswith_refl (x : pystr) : startswith x x = true.
Proof. rewrite <- (app_nil_r x) at 1. apply startswith_app. Qed.

Lemma py_in_suffix (x p : pystr) : py_in x (p ++ x) = true.
Proof.
  induction p as [|c p IH]; simpl.
  - destruct x as [|d x]; simpl; [reflexivity|].
    now rewrite N.eqb_refl, startswith_refl.
  - rewrite IH. apply orb_true_r.
Qed.

Lemma pystr_eqb_eq (a b : pystr) : pystr_eqb a b = true <-> a = b.
Proof.
  revert b; induction a as [|c a IH]; intros [|d b]; simpl; split; intro H;
    try reflexivity; try discriminate.
  - apply andb_true_iff in H as [H1 H2]. apply N.eqb_eq in H1. apply IH in H2.
    now subst.
  - injection H as -> ->. rewrite N.eqb_refl. now apply IH.
Qed.

Lemma lstrip_blank (s : pystr) : forallb isspace s = true -> lstrip s = [].
Proof.
  induction s as [|c s IH]; simpl; [reflexivity|].
  intro H. apply andb_true_iff in H as [Hc Hs]. rewrite Hc. now apply IH.
Qed.

Lemma split_strip_blank (s : pystr) :
  forallb isspace s = true -> split (strip s) = [].
Proof. intro H. unfold strip. now rewrite (lstrip_blank s H). Qed.

(** A token under construction ends up as the first token, followed by the
    rest of the text. *)
Lemma split_go_first (s cur : pystr) (t : pystr) (ts : list pystr) :
  cur <> [] ->
  (forall c, In c cur -> isspace c = false) ->
  split_go cur s = t :: ts ->
  (exists r, rev cur ++ s = t ++ r) /\ (forall c, In c t -> isspace c = false).
Proof.
  revert cur; induction s as [|c s IH]; intros cur Hne Hcur H; simpl in H.
  - destruct cur as [|d cur]; [congruence|]. injection H as <- <-.
    split; [exists []; reflexivity|].
    intros c Hc. apply Hcur. now apply in_rev.
  - destruct (isspace c) eqn:Hc.
    + destruct cur as [|d cur]; [congruence|]. injection H as <- _.
      split; [exists (c :: s); reflexivity|].
      intros x Hx. apply Hcur. now apply in_rev.
    + destruct (IH (c :: cur)) as [[r Hr] Ht]; try assumption; try discriminate.
      * intros x [<-|Hx]; [assumption|now apply Hcur].
      * split; [|assumption]. exists r. simpl in Hr.
        now rewrite <- app_assoc in Hr.
Qed.

Lemma split_first (s t : pystr) (ts : list pystr) :
  split s = t :: ts ->
  (exists r, lstrip s = t ++ r) /\ (forall c, In c t -> isspace c = false).
Proof.
  unfold split. induction s as [|c s IH]; simpl; [discriminate|].
  destruct (isspace c) eqn:Hc; [exact IH|].
  intro H. apply split_go_first in H; [exact H|discriminate|].
  intros x [<-|[]]. assumption.
Qed.

Lemma rstrip_word (t r : pystr) :
  (forall c, In c t -> isspace c = false) -> rstrip (t ++ r) = t ++ rstrip r.
Proof.
  induction t as [|c t IH]; intro Ht; simpl; [reflexivity|].
  rewrite IH by (intros x Hx; apply Ht; now right).
  rewrite (Ht c) by now left.
  now destruct (t ++ rstrip r).
Qed.

(** The first token of a text is a prefix of the stripped text. *)
Lemma first_token_prefix (s t : pystr) (ts : list pystr) :
  split s = t :: ts -> exists r, strip s = t ++ r.
Proof.
  intro H. apply split_first in H as [[r Hr] Ht].
  exists (rstrip r). unfold strip. rewrite Hr. now apply rstrip_word.
Qed.

Lemma upper_app {rt : PyRuntime} (a b : pystr) : upper (a ++ b) = upper a ++ upper b.
Proof. apply flat_map_app. Qed.

Lemma first_token_select_starts {rt : PyRuntime} (sql : pystr) :
  first_token_is_select sql = true -> starts_with_select sql = true.
Proof.
  unfold first_token_is_select, starts_with_select.
  destruct (split sql) as [|t ts] eqn:Hs; [discriminate|].
  intro H. apply pystr_eqb_eq in H.
  destruct (first_token_prefix _ _ _ Hs) as [r ->].
  rewrite upper_app, H. apply startswith_app.
Qed.

(** A status code of three digits prints as three characters. *)
Lemma str_of_Z_three_digits (z : Z) :
  (100 <= z <= 999)%Z -> List.length (str_of_Z z) = 3%nat.
Proof.
  intro Hz.
  assert (Hall : forallb
            (fun k => Nat.eqb (List.length (str_of_Z (100 + Z.of_nat k))) 3)
            (seq 0 900) = true) by (vm_compute; reflexivity).
  rewrite forallb_forall in Hall.
  specialize (Hall (Z.to_nat (z - 100))).
  replace (100 + Z.of_nat (Z.to_nat (z - 100)))%Z with z in Hall by lia.
  apply Nat.eqb_eq, Hall, in_seq. lia.
Qed.

(* ================================================================== *)
(** * The probes *)
(* ================================================================== *)

(** [check_connection] never raises: it makes one round trip and turns the
    answer into a status. *)
Lemma check_connection_run (w : world) (m : manager) (t : N) :
  check_connection w m t =
  mk_outcome (Returned (status_of_reply (probe_reply w m)))
    (t + latency w (probe_call m))
    [Net (probe_call m) t (t + latency w (probe_call m))].
Proof.
  destruct m; unfold check_connection, probe_reply, probe_call;
    [ unfold RedisManager.check_connection; destruct (redis_ping w) eqn:E
    | unfold PostgreSQLManager.check_connection; destruct (pg_connect w) eqn:E
    | unfold ElasticsearchManager.check_connection; destruct (es_cluster_health w) eqn:E
    | unfold QdrantManager.check_connection; destruct (qdrant_root w) eqn:E ];
    unfold try_except, bind, call, ret; cbn [result finish events]; rewrite ?E;
    cbn [result finish events status_of_reply app];
    try reflexivity;
    destruct (status_code a =? 200)%Z; reflexivity.
Qed.

Lemma connected_status_of_reply (w : world) (m : manager) :
  connected (status_of_reply (probe_reply w m)) = negb (probe_fails w m).
Proof.
  unfold probe_fails. destruct (probe_reply w m) as [[code|]|e]; simpl status_of_reply.
  - destruct (code =? 200)%Z; reflexivity.
  - reflexivity.
  - reflexivity.
Qed.

Lemma check_all_servers_run (w : world) (t : N) :
  let t1 := t + latency w RedisPing in
  let t2 := t1 + latency w PgConnect in
  let t3 := t2 + latency w EsClusterHealth in
  let t4 := t3 + latency w QdrantRoot in
  ServerStatusManager.check_all_servers w t =
  mk_outcome
    (Returned [(u "Redis", status_of_reply (probe_reply w ARedisManager));
               (u "PostgreSQL", status_of_reply (probe_reply w APostgreSQLManager));
               (u "Elasticsearch", status_of_reply (probe_reply w AnElasticsearchManager));
               (u "Qdrant", status_of_reply (probe_reply w AQdrantManager))])
    t4
    [Net RedisPing t t1; Net PgConnect t1 t2;
     Net EsClusterHealth t2 t3; Net QdrantRoot t3 t4].
Proof.
  intros t1 t2 t3 t4.
  unfold ServerStatusManager.check_all_servers, ServerStatusManager.managers.
  cbn [ServerStatusManager.check_loop]. unfold bind.
  repeat (rewrite check_connection_run; cbn [result finish events probe_call]).
  reflexivity.
Qed.

(** C4: a run of [check_all_servers] returns a snapshot with exactly one
    entry per registered manager, in registration order, whatever the probes
    answer.  The entry of a manager is connected exactly when its own probe
    did not fail, so a failing probe yields an unhealthy entry; and the entry
    of a manager is the same in any two runs in which its own probe is
    answered alike, so the failure of one probe leaves the other entries
    as they are. *)
Theorem check_all_servers_one_entry_each (w : world) (t : N) :
  exists snapshot,
    result (ServerStatusManager.check_all_servers w t) = Returned snapshot
    /\ dict_keys snapshot = dict_keys ServerStatusManager.managers
    /\ dict_keys snapshot = [u "Redis"; u "PostgreSQL"; u "Elasticsearch"; u "Qdrant"]
    /\ (forall name m, In (name, m) ServerStatusManager.managers ->
        exists s, dict_get name snapshot = Some s
                  /\ connected s = negb (probe_fails w m))
    /\ (forall w' t' snapshot' name m,
        result (ServerStatusManager.check_all_servers w' t') = Returned snapshot' ->
        In (name, m) ServerStatusManager.managers ->
        probe_reply w' m = probe_reply w m ->
        dict_get name snapshot' = dict_get name snapshot).
Proof.
  rewrite check_all_servers_run. eexists. split; [reflexivity|].
  split; [reflexivity|]. split; [reflexivity|]. split.
  - intros name m Hin. exists (status_of_reply (probe_reply w m)).
    split; [|apply connected_status_of_reply].
    simpl in Hin.
    destruct Hin as [H|[H|[H|[H|[]]]]]; injection H as <- <-; reflexivity.
  - intros w' t' snapshot' name m Hrun Hin Hsame.
    rewrite check_all_servers_run in Hrun. cbn [result] in Hrun.
    injection Hrun as <-. simpl in Hin.
    destruct Hin as [H|[H|[H|[H|[]]]]]; injection H as <- <-;
      match goal with
      | Hs : probe_reply w' ?M = _ |- _ =>
          transitivity (Some (status_of_reply (probe_reply w' M)));
          [reflexivity | rewrite Hs; reflexivity]
      end.
Qed.

(** C5, as the code has it: every status a probe produces carries a detail
    of at most 50 characters, given that HTTP status codes have three
    digits; the detail of a connected status is the fixed word for "normal";
    the detail of an unhealthy status is either "Status: " followed by the
    status code the probe was answered, which is not 200, or the first 50
    characters of the message of the exception the probe raised; so an
    unhealthy status has an empty detail only when the probe raised an
    exception whose message is itself empty. *)
Theorem details_bounded_and_empty_only_for_empty_message
  (w : world) (m : manager) (t : N) :
  status_codes_in_range w ->
  exists s,
    result (check_connection w m t) = Returned s
    /\ (List.length (details s) <= 50)%nat
    /\ (connected s = true -> details s = u "正常")
    /\ (connected s = false ->
        (exists code, probe_reply w m = Returned (Some code)
                      /\ code <> 200%Z
                      /\ details s = u "Status: " ++ str_of_Z code)
        \/ (exists e, probe_reply w m = Raised e
                      /\ details s = slice_to 50 (exn_msg e)))
    /\ (connected s = false -> details s = [] ->
        exists e, probe_reply w m = Raised e /\ exn_msg e = []).
Proof.
  intro Hcodes. rewrite check_connection_run. eexists. split; [reflexivity|].
  specialize (Hcodes m).
  destruct (probe_reply w m) as [[code|]|e]; cbn [status_of_reply].
  - destruct (code =? 200)%Z eqn:Hc.
    + split; [cbn; lia|]. split; [reflexivity|]. split; discriminate.
    + cbn [details]. split; [|split; [|split]].
      * rewrite length_app.
        rewrite (str_of_Z_three_digits code (Hcodes code eq_refl)).
        change (List.length (u "Status: ")) with 8%nat. lia.
      * discriminate.
      * intros _. left. exists code. split; [reflexivity|].
        split; [apply Z.eqb_neq; exact Hc|reflexivity].
      * intros _ H. apply (f_equal (@List.length N)) in H.
        rewrite length_app in H. discriminate H.
  - split; [cbn; lia|]. split; [reflexivity|]. split; discriminate.
  - cbn [details]. split; [|split; [|split]].
    + unfold slice_to. rewrite length_firstn. lia.
    + discriminate.
    + intros _. right. exists e. split; reflexivity.
    + intros _ H. exists e. split; [reflexivity|].
      unfold slice_to in H. destruct (exn_msg e); [reflexivity|discriminate].
Qed.

(** C8, as the code has it: the four probes of one run of
    [check_all_servers] run one after the other in registration order, each
    issued at the moment the one before it returned, so the run takes the
    sum of the four latencies. *)
Theorem check_all_servers_sequential (w : world) (t : N) :
  let t1 := t + latency w RedisPing in
  let t2 := t1 + latency w PgConnect in
  let t3 := t2 + latency w EsClusterHealth in
  let t4 := t3 + latency w QdrantRoot in
  events (ServerStatusManager.check_all_servers w t) =
    [Net RedisPing t t1; Net PgConnect t1 t2;
     Net EsClusterHealth t2 t3; Net QdrantRoot t3 t4]
  /\ finish (ServerStatusManager.check_all_servers w t) =
     t + (latency w RedisPing + latency w PgConnect
          + latency w EsClusterHealth + latency w QdrantRoot).
Proof.
  intros t1 t2 t3 t4. rewrite check_all_servers_run. cbn [events finish].
  split; [reflexivity|]. subst t1 t2 t3 t4. lia.
Qed.

(* ================================================================== *)
(** * The summaries *)
(* ================================================================== *)

(** C6: [get_data_summary] of every manager returns a summary and never
    raises; whenever anything inside its [try] block raises, the summary it
    returns has the status field ["error"]. *)
Theorem get_data_summary_never_raises (w : world) (m : manager) (t : N) :
  exists summary,
    result (get_data_summary w m t) = Returned summary
    /\ (forall e, result (get_data_summary_try w m t) = Raised e ->
        dict_get (u "status") summary = Some (PStr (u "error"))).
Proof.
  destruct m; unfold get_data_summary, get_data_summary_try;
    [ unfold RedisManager.get_data_summary;
      destruct (result (RedisManager.get_data_summary_try w t)) eqn:E
    | unfold PostgreSQLManager.get_data_summary;
      destruct (result (PostgreSQLManager.get_data_summary_try w t)) eqn:E
    | unfold ElasticsearchManager.get_data_summary;
      destruct (result (ElasticsearchManager.get_data_summary_try w t)) eqn:E
    | unfold QdrantManager.get_data_summary;
      destruct (result (QdrantManager.get_data_summary_try w t)) eqn:E ];
    unfold try_except; rewrite E; cbn [result ret]; rewrite ?E;
    eexists; (split; [reflexivity|]);
    intros e' He'; try discriminate He'; reflexivity.
Qed.

(** One turn of the counting loop. *)
Lemma scan_loop_cons (w : world) (k : pystr) (items : list pystr) (count : Z) (t : N) :
  RedisManager.scan_loop w (k :: items) count t =
  let t' := t + latency w RedisScanNext in
  if (1000 <? count + 1)%Z
  then mk_outcome
         (Returned (inl [(u "key_count", PStr (str_of_Z (count + 1) ++ u "+"));
                         (u "status", PStr (u "partial"))]))
         t' [Net RedisScanNext t t']
  else
    let o := RedisManager.scan_loop w items (count + 1)%Z t' in
    mk_outcome (result o) (finish o) (Net RedisScanNext t t' :: events o).
Proof.
  cbn [RedisManager.scan_loop]. unfold bind, call. cbn [result finish events].
  destruct (1000 <? count + 1)%Z; reflexivity.
Qed.

(** The counting loop below the limit: it pulls every key and leaves with
    the exact count. *)
Lemma scan_loop_complete (w : world) (items : list pystr) (count : Z) (t : N) :
  redis_scan_end w = None ->
  (count + Z.of_nat (List.length items) <= 1000)%Z ->
  result (RedisManager.scan_loop w items count t)
  = Returned (inr (count + Z.of_nat (List.length items))%Z)
  /\ net_calls (events (RedisManager.scan_loop w items count t))
     = repeat RedisScanNext (List.length items).
Proof.
  intro Hend. revert count t.
  induction items as [|k items IH]; intros count t Hle.
  - cbn [RedisManager.scan_loop]. rewrite Hend. cbn [ret result events List.length].
    split; [f_equal; f_equal; cbn [Z.of_nat]; lia | reflexivity].
  - rewrite scan_loop_cons. cbv zeta. cbn [List.length] in Hle.
    replace (1000 <? count + 1)%Z with false by (symmetry; apply Z.ltb_ge; lia).
    destruct (IH (count + 1)%Z (t + latency w RedisScanNext)) as [Hr Hn]; [lia|].
    cbn [result events]. rewrite Hr.
    split; [f_equal; f_equal; cbn [List.length]; lia|].
    cbn [net_calls flat_map app List.length repeat]. f_equal. exact Hn.
Qed.

(** The counting loop with more keys than the limit: it leaves at the
    1001st key, whatever comes after it. *)
Lemma scan_loop_partial (w : world) (items : list pystr) (count : Z) (t : N) :
  (0 <= count <= 1000)%Z ->
  (1000 < count + Z.of_nat (List.length items))%Z ->
  result (RedisManager.scan_loop w items count t)
  = Returned (inl [(u "key_count", PStr (str_of_Z 1001 ++ u "+"));
                   (u "status", PStr (u "partial"))])
  /\ net_calls (events (RedisManager.scan_loop w items count t))
     = repeat RedisScanNext (Z.to_nat (1001 - count)).
Proof.
  revert count t.
  induction items as [|k items IH]; intros count t Hc Hgt.
  - cbn [List.length Z.of_nat] in Hgt. lia.
  - rewrite scan_loop_cons. cbv zeta. cbn [List.length] in Hgt.
    destruct (1000 <? count + 1)%Z eqn:Hlim.
    + apply Z.ltb_lt in Hlim. assert (count = 1000%Z) as -> by lia.
      split; reflexivity.
    + apply Z.ltb_ge in Hlim.
      destruct (IH (count + 1)%Z (t + latency w RedisScanNext)) as [Hr Hn]; [lia|lia|].
      cbn [result events]. rewrite Hr.
      split; [reflexivity|].
      replace (Z.to_nat (1001 - count)) with (S (Z.to_nat (1001 - (count + 1)))) by lia.
      cbn [net_calls flat_map app repeat]. f_equal. exact Hn.
Qed.

(** C9: with more than 1000 keys the key-value summary stops at the 1001st
    key and returns ["1001+"] with status ["partial"] and no session or
    counter count, without asking for the session or counter keys; with at
    most 1000 keys, and a store that answers, it returns the exact count
    with status ["complete"] and the two counts. *)
Theorem redis_summary_partial_or_complete (w : world) (t : N) :
  ((1000 < List.length (redis_scan w))%nat ->
   result (RedisManager.get_data_summary w t)
   = Returned [(u "key_count", PStr (str_of_Z 1001 ++ u "+"));
               (u "status", PStr (u "partial"))]
   /\ net_calls (events (RedisManager.get_data_summary w t))
      = repeat RedisScanNext 1001)
  /\ ((List.length (redis_scan w) <= 1000)%nat ->
      redis_scan_end w = None ->
      forall sessions counters,
        redis_keys w (u "session:*") = Returned sessions ->
        redis_keys w (u "counter:*") = Returned counters ->
        result (RedisManager.get_data_summary w t)
        = Returned [(u "key_count", PStr (str_of_Z (Z.of_nat (List.length (redis_scan w)))));
                    (u "status", PStr (u "complete"));
                    (u "session_count", PInt (Z.of_nat (List.length sessions)));
                    (u "counter_count", PInt (Z.of_nat (List.length counters)))]).
Proof.
  split.
  - intro Hbig.
    destruct (scan_loop_partial w (redis_scan w) 0 t) as [Hr Hn]; [lia|lia|].
    unfold RedisManager.get_data_summary, RedisManager.get_data_summary_try,
      try_except, bind.
    rewrite Hr. cbn [result finish events ret]. rewrite app_nil_r.
    split; [reflexivity|exact Hn].
  - intros Hsmall Hend sessions counters Hs Hc.
    destruct (scan_loop_complete w (redis_scan w) 0 t Hend) as [Hr _]; [lia|].
    unfold RedisManager.get_data_summary, RedisManager.get_data_summary_try,
      try_except, bind.
    rewrite Hr. unfold call. cbn [result finish events]. rewrite Hs.
    cbn [result finish events]. rewrite Hc. reflexivity.
Qed.

(* ================================================================== *)
(** * The relational query box *)
(* ================================================================== *)

Section RelationalGate.
Context {rt : PyRuntime}.

(** Every path of [_render_postgresql_query], spelled out. *)
Lemma pg_query_run (w : world) (sql : pystr) (t : N) :
  DirectQueryPage._render_postgresql_query w sql t =
  let t1 := t + latency w PgConnect in
  let t2 := t1 + latency w (PgReadSql sql) in
  let failed e := Ui (st_error (u "エラー: " ++ exn_msg e)) in
  mk_outcome (Returned tt)
    (match pg_connect w, starts_with_select sql, engine_of_getenv w with
     | Returned _, true, Returned _ => t2
     | _, _, _ => t1
     end)
    (Net PgConnect t t1 ::
     match pg_connect w with
     | Raised _ => [Ui pg_unavailable]
     | Returned _ =>
         if starts_with_select sql then
           match engine_of_getenv w with
           | Raised e => [failed e]
           | Returned _ =>
               Net (PgReadSql sql) t1 t2 ::
               match read_sql w sql with
               | Raised e => [failed e]
               | Returned df =>
                   if (0 <? List.length df)%nat
                   then [Ui (st_dataframe df); Ui (st_download_button df)]
                   else [Ui (st_info (u "クエリの結果は空でした"))]
               end
           end
         else [Ui select_only]
     end).
Proof.
  unfold DirectQueryPage._render_postgresql_query.
  change (PostgreSQLManager.check_connection w)
    with (check_connection w APostgreSQLManager).
  unfold bind at 1. rewrite check_connection_run.
  cbn [result finish events probe_call probe_reply].
  fold (starts_with_select sql).
  destruct (pg_connect w) as [x|e]; cbn [status_of_reply status];
    [|reflexivity].
  change (py_in (u "🟢") (u "🟢 接続OK")) with true. cbv iota.
  unfold try_except, bind, lift, call, show.
  destruct (starts_with_select sql); cbn [negb result finish events app];
    [|reflexivity].
  destruct (engine_of_getenv w) as [y|e]; cbn [result finish events app];
    [|reflexivity].
  destruct (read_sql w sql) as [df|e]; cbn [result finish events app];
    [|reflexivity].
  destruct (0 <? List.length df)%nat; reflexivity.
Qed.

(** C1, as the code has it: a relational command that does not begin with
    SELECT (after stripping and upper-casing) is never sent to the backend;
    the only network call is the health probe, which comes first, and the
    page then shows the SELECT-only rejection when the probe succeeded and
    the backend-unavailable warning when it failed. *)
Theorem pg_non_select_probed_then_refused (w : world) (sql : pystr) (t : N) :
  starts_with_select sql = false ->
  let o := DirectQueryPage._render_postgresql_query w sql t in
  result o = Returned tt
  /\ net_calls (events o) = [PgConnect]
  /\ shown (events o) =
     [match pg_connect w with
      | Returned _ => select_only
      | Raised _ => pg_unavailable
      end].
Proof.
  intros Hsel o. subst o. rewrite pg_query_run. cbv zeta. rewrite Hsel.
  cbn [result events]. split; [reflexivity|].
  destruct (pg_connect w); split; reflexivity.
Qed.

(** Every path of [pg_exec] of the sample script. *)
Lemma sample_pg_run (status : dict pystr) (w : world) (sql : pystr) (t : N) :
  a_mcp_sample.pg_exec status w sql t =
  let t2 := t + latency w (PgReadSql sql) in
  let failed e := Ui (st_error (u "エラー: " ++ exn_msg e)) in
  let healthy :=
    py_in (u "🟢")
      (match dict_get (u "PostgreSQL") status with Some s => s | None => [] end) in
  mk_outcome (Returned tt)
    (match healthy, starts_with_select sql, engine_of_getenv w with
     | true, true, Returned _ => t2
     | _, _, _ => t
     end)
    (if healthy then
       if starts_with_select sql then
         match engine_of_getenv w with
         | Raised e => [failed e]
         | Returned _ =>
             Net (PgReadSql sql) t t2 ::
             match read_sql w sql with
             | Raised e => [failed e]
             | Returned df =>
                 if (0 <? List.length df)%nat
                 then [Ui (st_dataframe df); Ui (st_download_button df)]
                 else [Ui (st_info (u "クエリの結果は空でした"))]
             end
         end
       else [Ui select_only]
     else [Ui pg_unavailable]).
Proof.
  unfold a_mcp_sample.pg_exec. cbv zeta.
  fold (starts_with_select sql).
  destruct (py_in (u "🟢") _); [|reflexivity].
  unfold try_except, bind, lift, call, show.
  destruct (starts_with_select sql); cbn [negb result finish events app];
    [|reflexivity].
  destruct (engine_of_getenv w) as [y|e]; cbn [result finish events app];
    [|reflexivity].
  destruct (read_sql w sql) as [df|e]; cbn [result finish events app];
    [|reflexivity].
  destruct (0 <? List.length df)%nat; reflexivity.
Qed.

(** C2, as the code has it: the command is sent to the relational backend
    exactly when the health probe succeeds, the command begins with SELECT
    after stripping and upper-casing, and the engine can be created; nothing
    but the command itself is ever sent; a command whose first token is
    SELECT in any case begins with SELECT in that sense; and the sample
    script does the same with the cached status in place of a fresh probe. *)
Theorem pg_executes_iff_probe_ok_and_select_prefix
  (w : world) (sql : pystr) (t : N) :
  let o := DirectQueryPage._render_postgresql_query w sql t in
  (In (PgReadSql sql) (net_calls (events o)) <->
   (exists x, pg_connect w = Returned x)
   /\ starts_with_select sql = true
   /\ (exists y, engine_of_getenv w = Returned y))
  /\ (forall q, In (PgReadSql q) (net_calls (events o)) -> q = sql)
  /\ (first_token_is_select sql = true -> starts_with_select sql = true)
  /\ (forall status,
      In (PgReadSql sql) (net_calls (events (a_mcp_sample.pg_exec status w sql t))) <->
      py_in (u "🟢")
        (match dict_get (u "PostgreSQL") status with Some s => s | None => [] end)
      = true
      /\ starts_with_select sql = true
      /\ (exists y, engine_of_getenv w = Returned y)).
Proof.
  intro o. subst o. rewrite pg_query_run. cbv zeta. cbn [events].
  split; [|split; [|split; [apply first_token_select_starts|]]].
  - destruct (pg_connect w) as [x|e]; [|cbn; split;
      [intros [H|[]]; discriminate | intros [[x Hx] _]; discriminate]].
    destruct (starts_with_select sql); [|cbn; split;
      [intros [H|[]]; discriminate | intros [_ [H _]]; discriminate]].
    destruct (engine_of_getenv w) as [y|e]; [|cbn; split;
      [intros [H|[]]; discriminate | intros [_ [_ [y Hy]]]; discriminate]].
    split; [intros _; repeat split; eauto|].
    intros _. cbn. right. now left.
  - intros q.
    destruct (pg_connect w) as [x|e]; [|cbn; intros [H|[]]; discriminate].
    destruct (starts_with_select sql); [|cbn; intros [H|[]]; discriminate].
    destruct (engine_of_getenv w) as [y|e]; [|cbn; intros [H|[]]; discriminate].
    destruct (read_sql w sql) as [df|e];
      [destruct (0 <? List.length df)%nat|];
      cbn; intros [H|[H|[]]]; try discriminate; now injection H.
  - intro status. rewrite sample_pg_run. cbv zeta. cbn [events].
    destruct (py_in (u "🟢") _); [|cbn; split;
      [intros [] | intros [H _]; discriminate]].
    destruct (starts_with_select sql); [|cbn; split;
      [intros [] | intros [_ [H _]]; discriminate]].
    destruct (engine_of_getenv w) as [y|e]; [|cbn; split;
      [intros [] | intros [_ [_ [y Hy]]]; discriminate]].
    split; [intros _; repeat split; eauto|].
    intros _. cbn. now left.
Qed.
End RelationalGate.

(* ================================================================== *)
(** * The key-value command box *)
(* ================================================================== *)

Section KeyValueGate.
Context {rt : PyRuntime}.

(** [_execute_redis_command] on a command with at least one token: the
    chain of tests on the upper-cased first token. *)
Lemma redis_command_run (w : world) (command first : pystr) (args : list pystr) (t : N) :
  split (strip command) = first :: args ->
  DirectQueryPage._execute_redis_command w command t =
  let cmd := upper first in
  let refuse msg := mk_outcome (Returned PNone) t [Ui (st_error msg)] in
  if pystr_eqb cmd (u "KEYS") then
    (found <- call w (RedisKeys (hd (u "*") args))
                (redis_keys w (hd (u "*") args)) ;;
     ret (PList (map PStr (sorted found)))) t
  else if pystr_eqb cmd (u "GET") then
    match args with
    | [] => refuse (u "GET コマンドにはキーを指定してください")
    | key :: _ =>
        (v <- call w (RedisGet key) (redis_get w key) ;;
         ret (match v with Some s => PStr s | None => PNone end)) t
    end
  else if pystr_eqb cmd (u "HGETALL") then
    match args with
    | [] => refuse (u "HGETALL コマンドにはキーを指定してください")
    | key :: _ =>
        (h <- call w (RedisHgetall key) (redis_hgetall w key) ;;
         ret (PDict (map (fun kv => (fst kv, PStr (snd kv))) h))) t
    end
  else if pystr_eqb cmd (u "SMEMBERS") then
    match args with
    | [] => refuse (u "SMEMBERS コマンドにはキーを指定してください")
    | key :: _ =>
        (members <- call w (RedisSmembers key) (redis_smembers w key) ;;
         ret (PList (map PStr (sorted members)))) t
    end
  else if pystr_eqb cmd (u "LRANGE") then
    match args with
    | key :: a :: b :: _ =>
        (start <- lift (py_int a) ;;
         stop <- lift (py_int b) ;;
         items <- call w (RedisLrange key start stop) (redis_lrange w key start stop) ;;
         ret (PList (map PStr items))) t
    | _ => refuse (u "LRANGE コマンドの形式: LRANGE key start stop")
    end
  else mk_outcome (Returned PNone) t [Ui (unsupported cmd); Ui supported_list].
Proof.
  intro Hparts. unfold DirectQueryPage._execute_redis_command.
  rewrite Hparts. cbv zeta.
  unfold bind at 1. cbn [lift py_index nth_error result finish events app].
  destruct (pystr_eqb (upper first) (u "KEYS")).
  { destruct args as [|pattern args]; run_out (redis_keys w). }
  destruct (pystr_eqb (upper first) (u "GET")).
  { destruct args as [|key args]; run_out (redis_get w). }
  destruct (pystr_eqb (upper first) (u "HGETALL")).
  { destruct args as [|key args]; run_out (redis_hgetall w). }
  destruct (pystr_eqb (upper first) (u "SMEMBERS")).
  { destruct args as [|key args]; run_out (redis_smembers w). }
  destruct (pystr_eqb (upper first) (u "LRANGE")); [|reflexivity].
  destruct args as [|key [|a [|b args]]]; try reflexivity.
  cbn [List.length Nat.leb py_index nth_error].
  unfold bind, lift, call, ret. cbn [result finish events app].
  destruct (py_int a); [|reflexivity].
  cbn [result finish events app].
  destruct (py_int b); [|reflexivity].
  cbn [result finish events app].
  destruct (redis_lrange w key a0 a1); reflexivity.
Qed.

(** C3, as the code has it, for a command with at least one token: a verb
    outside the five known ones is refused with an error that names the
    upper-cased verb, and nothing is sent; GET, HGETALL and SMEMBERS without
    a key, and LRANGE with fewer than three arguments, are refused with an
    error that names the verb, and nothing is sent; KEYS without a pattern
    is run with the pattern ["*"]. *)
Theorem redis_command_refusals
  (w : world) (command first : pystr) (args : list pystr) (t : N) :
  split (strip command) = first :: args ->
  let cmd := upper first in
  let o := DirectQueryPage._execute_redis_command w command t in
  let refused_with msg := o = mk_outcome (Returned PNone) t [Ui (st_error msg)] in
  (known_verb cmd = false ->
   o = mk_outcome (Returned PNone) t [Ui (unsupported cmd); Ui supported_list]
   /\ exists msg, unsupported cmd = st_error msg /\ py_in cmd msg = true)
  /\ (cmd = u "GET" -> args = [] ->
      refused_with (u "GET コマンドにはキーを指定してください"))
  /\ (cmd = u "HGETALL" -> args = [] ->
      refused_with (u "HGETALL コマンドにはキーを指定してください"))
  /\ (cmd = u "SMEMBERS" -> args = [] ->
      refused_with (u "SMEMBERS コマンドにはキーを指定してください"))
  /\ (cmd = u "LRANGE" -> (List.length args < 3)%nat ->
      refused_with (u "LRANGE コマンドの形式: LRANGE key start stop"))
  /\ (cmd = u "KEYS" -> args = [] ->
      net_calls (events o) = [RedisKeys (u "*")]).
Proof.
  intros Hparts cmd o refused_with. subst o refused_with.
  rewrite (redis_command_run w command first args t Hparts). cbv zeta.
  fold cmd. repeat split.
  - unfold known_verb in H. repeat (apply orb_false_iff in H as [H ?]).
    fold cmd in H, H0, H1, H2, H3.
    now rewrite H, H0, H1, H2, H3.
  - exists (u "サポートされていないコマンドです: " ++ cmd).
    split; [reflexivity|apply py_in_suffix].
  - intros -> ->. reflexivity.
  - intros -> ->. reflexivity.
  - intros -> ->. reflexivity.
  - intros -> Hlen. destruct args as [|key [|a [|b args]]]; try reflexivity.
    cbn [List.length] in Hlen. lia.
  - intros -> ->. change (pystr_eqb (u "KEYS") (u "KEYS")) with true. cbv iota.
    unfold bind, call, ret. cbn [hd result finish events].
    destruct (redis_keys w (u "*")); reflexivity.
Qed.

(** [_execute_redis_command] on a command without a token. *)
Lemma redis_command_run_blank (w : world) (command : pystr) (t : N) :
  split (strip command) = [] ->
  DirectQueryPage._execute_redis_command w command t =
  mk_outcome (Raised (mk_exn IndexError (u "list index out of range"))) t [].
Proof.
  intro Hparts. unfold DirectQueryPage._execute_redis_command.
  rewrite Hparts. reflexivity.
Qed.

(** C10: on an empty or all-whitespace command the executor raises
    [IndexError] at [cmd_parts[0]]: it shows no refusal and sends nothing. *)
Theorem blank_redis_command_raises_index_error
  (w : world) (command : pystr) (t : N) :
  forallb isspace command = true ->
  DirectQueryPage._execute_redis_command w command t =
  mk_outcome (Raised (mk_exn IndexError (u "list index out of range"))) t [].
Proof.
  intro Hblank. apply redis_command_run_blank, split_strip_blank, Hblank.
Qed.

(** The exception leaves the executor; it is the page around it that
    catches it and shows it as a general error. *)
Lemma blank_redis_command_on_the_page (w : world) (command : pystr) (t : N) :
  forallb isspace command = true ->
  redis_ping w = Returned tt ->
  shown (events (DirectQueryPage._render_redis_query w command t))
  = [st_error (u "エラー: " ++ u "list index out of range")].
Proof.
  intros Hblank Hping. unfold DirectQueryPage._render_redis_query.
  change (RedisManager.check_connection w) with (check_connection w ARedisManager).
  unfold bind at 1. rewrite check_connection_run.
  cbn [result finish events probe_call probe_reply]. rewrite Hping.
  cbn [status_of_reply status].
  change (py_in (u "🟢") (u "🟢 接続OK")) with true. cbv iota.
  unfold try_except, bind.
  rewrite (redis_command_run_blank w command _ (split_strip_blank command Hblank)).
  reflexivity.
Qed.
End KeyValueGate.

(* ================================================================== *)
(** * The model at work *)
(* ================================================================== *)

Example literal_decoded :
  u "🟢 接続OK" = [128994; 32; 25509; 32154; 79; 75].
Proof. reflexivity. Qed.

Example split_on_whitespace :
  split (strip (u "  LRANGE search:recent 0  -1 "))
  = [u "LRANGE"; u "search:recent"; u "0"; u "-1"].
Proof. reflexivity. Qed.

Example smembers_sorted :
  result (@DirectQueryPage._execute_redis_command ascii_runtime demo_world
            (u "SMEMBERS categories:all") 0)
  = Returned (PList [PStr (u "Books"); PStr (u "Sports")]).
Proof. reflexivity. Qed.

Example lrange_parsed :
  net_calls (events (@DirectQueryPage._execute_redis_command ascii_runtime demo_world
                       (u "  lrange search:recent 0 -1 ") 0))
  = [RedisLrange (u "search:recent") 0 (-1)].
Proof. reflexivity. Qed.

Example check_all_with_one_down :
  result (ServerStatusManager.check_all_servers pg_down 0)
  = Returned [(u "Redis", mk_conn_status (u "🟢 接続OK") (u "正常"));
              (u "PostgreSQL", mk_conn_status (u "🔴 接続NG") (u "Connection refused"));
              (u "Elasticsearch", mk_conn_status (u "🟢 接続OK") (u "正常"));
              (u "Qdrant", mk_conn_status (u "🟢 接続OK") (u "正常"))].
Proof. reflexivity. Qed.

Example connected_count_with_one_down :
  ServerStatusManager.get_connected_count
    [(u "Redis", mk_conn_status (u "🟢 接続OK") (u "正常"));
     (u "PostgreSQL", mk_conn_status (u "🔴 接続NG") (u "Connection refused"));
     (u "Elasticsearch", mk_conn_status (u "🟢 接続OK") (u "正常"));
     (u "Qdrant", mk_conn_status (u "🟢 接続OK") (u "正常"))] = 3%nat.
Proof. reflexivity. Qed.

Example summary_of_demo_store :
  result (RedisManager.get_data_summary demo_world 0)
  = Returned [(u "key_count", PStr (u "3")); (u "status", PStr (u "complete"));
              (u "session_count", PInt 1); (u "counter_count", PInt 1)].
Proof. reflexivity. Qed.

Example summary_of_malformed_collections :
  result (QdrantManager.get_data_summary
            (mk_world (Returned tt) [] None (fun _ => Returned []) (fun _ => Returned None)
               (fun _ => Returned []) (fun _ => Returned []) (fun _ _ _ => Returned [])
               (Returned tt) (Returned tt) (Returned tt) (fun _ => Returned [])
               (ok_response (PDict [])) (ok_response (PDict []))
               (ok_response (PDict []))
               (ok_response (PDict [(u "result", PDict [(u "collections", PInt 3)])]))
               (fun _ => 1)) 0)
  = Returned [(u "collection_count", PStr (u "?")); (u "status", PStr (u "error"))].
Proof. reflexivity. Qed.

(** ** C1 on the code *)

(** With the relational database down, "DELETE FROM customers" is answered
    with the backend-unavailable warning rather than the rejection, and in
    either state of the backend the health probe is sent first. *)
Lemma delete_probed_first_and_unavailable_when_down :
  let down := @DirectQueryPage._render_postgresql_query ascii_runtime pg_down
                (u "DELETE FROM customers") 0 in
  let up := @DirectQueryPage._render_postgresql_query ascii_runtime demo_world
              (u "DELETE FROM customers") 0 in
  events down = [Net PgConnect 0 1; Ui pg_unavailable]
  /\ shown (events down) <> [select_only]
  /\ events up = [Net PgConnect 0 1; Ui select_only]
  /\ net_calls (events up) <> [].
Proof. cbv zeta. repeat split; try reflexivity; discriminate. Qed.

Lemma pg_non_select_witness :
  starts_with_select (rt := ascii_runtime) (u "DELETE FROM customers") = false
  /\ let o := @DirectQueryPage._render_postgresql_query ascii_runtime demo_world
                (u "DELETE FROM customers") 0 in
     result o = Returned tt
     /\ net_calls (events o) = [PgConnect]
     /\ shown (events o) = [select_only].
Proof.
  split; [reflexivity|].
  apply (@pg_non_select_probed_then_refused ascii_runtime demo_world
           (u "DELETE FROM customers") 0).
  reflexivity.
Defined.

(** ** C2 on the code *)

(** "SELECTX 1" has a first token other than SELECT and is sent to the
    backend all the same; "SELECT 1" has the first token SELECT and is not
    sent when the database is down. *)
Lemma selectx_executed_and_select_not_when_down :
  first_token_is_select (rt := ascii_runtime) (u "SELECTX 1") = false
  /\ net_calls (events (@DirectQueryPage._render_postgresql_query ascii_runtime
                          demo_world (u "SELECTX 1") 0))
     = [PgConnect; PgReadSql (u "SELECTX 1")]
  /\ first_token_is_select (rt := ascii_runtime) (u "SELECT 1") = true
  /\ net_calls (events (@DirectQueryPage._render_postgresql_query ascii_runtime
                          pg_down (u "SELECT 1") 0))
     = [PgConnect].
Proof. repeat split. Qed.

(** ** C3 on the code *)

(** "KEYS" without its pattern is run with the pattern ["*"], and nothing
    is shown. *)
Lemma keys_without_pattern_runs_with_default :
  let o := @DirectQueryPage._execute_redis_command ascii_runtime demo_world (u "KEYS") 0 in
  net_calls (events o) = [RedisKeys (u "*")]
  /\ shown (events o) = []
  /\ result o = Returned (PList [PStr (u "categories:all"); PStr (u "counter:views");
                                 PStr (u "session:1")]).
Proof. cbv zeta. repeat split. Qed.

Lemma redis_command_refusals_witness :
  split (strip (u "flushall now")) = [u "flushall"; u "now"]
  /\ @DirectQueryPage._execute_redis_command ascii_runtime demo_world (u "flushall now") 0
     = mk_outcome (Returned PNone) 0 [Ui (unsupported (u "FLUSHALL")); Ui supported_list].
Proof.
  split; [reflexivity|].
  pose proof (@redis_command_refusals ascii_runtime demo_world (u "flushall now")
                (u "flushall") [u "now"] 0 eq_refl) as H.
  cbv zeta in H. destruct H as [H _]. destruct (H eq_refl) as [H1 _]. exact H1.
Defined.

(** ** C5 on the code *)

(** A probe that fails with an exception without a message yields an
    unhealthy status whose detail is empty. *)
Lemma silent_failure_gives_empty_detail :
  result (check_connection redis_silent ARedisManager 0)
  = Returned (mk_conn_status (u "🔴 接続NG") [])
  /\ connected (mk_conn_status (u "🔴 接続NG") []) = false
  /\ details (mk_conn_status (u "🔴 接続NG") []) = [].
Proof. repeat split. Qed.

Lemma details_witness :
  status_codes_in_range es_unavailable
  /\ exists s,
       result (check_connection es_unavailable AnElasticsearchManager 0) = Returned s
       /\ (List.length (details s) <= 50)%nat
       /\ (connected s = true -> details s = u "正常")
       /\ (connected s = false ->
           (exists code,
              probe_reply es_unavailable AnElasticsearchManager = Returned (Some code)
              /\ code <> 200%Z
              /\ details s = u "Status: " ++ str_of_Z code)
           \/ (exists e,
                 probe_reply es_unavailable AnElasticsearchManager = Raised e
                 /\ details s = slice_to 50 (exn_msg e)))
       /\ (connected s = false -> details s = [] ->
           exists e, probe_reply es_unavailable AnElasticsearchManager = Raised e
                     /\ exn_msg e = []).
Proof.
  assert (Hcodes : status_codes_in_range es_unavailable).
  { intros m code H. destruct m; simpl in H; try discriminate H;
      injection H as <-; lia. }
  split; [exact Hcodes|].
  apply (details_bounded_and_empty_only_for_empty_message
           es_unavailable AnElasticsearchManager 0 Hcodes).
Defined.

(** ** C8 on the code *)

(** With every probe taking three time units the run takes twelve, four
    times the slowest probe, and the second probe is issued only when the
    first has returned. *)
Lemma slow_probes_add_up :
  finish (ServerStatusManager.check_all_servers slow_world 0) = 12
  /\ slowest_probe slow_world = 3
  /\ ~ (finish (ServerStatusManager.check_all_servers slow_world 0) - 0
        <= slowest_probe slow_world)
  /\ events (ServerStatusManager.check_all_servers slow_world 0)
     = [Net RedisPing 0 3; Net PgConnect 3 6;
        Net EsClusterHealth 6 9; Net QdrantRoot 9 12].
Proof. repeat split. intro H. vm_compute in H. apply H. reflexivity. Qed.

(** ** C9 and C10 on the code *)

Lemma redis_summary_witness :
  result (RedisManager.get_data_summary big_store 0)
  = Returned [(u "key_count", PStr (u "1001+")); (u "status", PStr (u "partial"))].
Proof.
  apply (proj1 (redis_summary_partial_or_complete big_store 0)).
  apply Nat.ltb_lt. reflexivity.
Defined.

Lemma blank_redis_command_witness :
  forallb isspace (u "   ") = true
  /\ @DirectQueryPage._execute_redis_command ascii_runtime demo_world (u "   ") 0
     = mk_outcome (Raised (mk_exn IndexError (u "list index out of range"))) 0 [].
Proof.
  split; [reflexivity|].
  apply (@blank_redis_command_raises_index_error ascii_runtime demo_world (u "   ") 0).
  reflexivity.
Defined.

(* ================================================================== *)
(** * Facts about sorting, dicts and the green mark *)
(* ================================================================== *)

Lemma pystr_leb_total (a b : pystr) : pystr_leb a b = false -> pystr_leb b a = true.
Proof.
  revert b; induction a as [|c a IH]; intros [|d b]; simpl; try easy.
  intro H. apply orb_false_iff in H as [Hlt H].
  apply N.ltb_ge in Hlt.
  destruct (d <? c) eqn:Hdc; [reflexivity|]. apply N.ltb_ge in Hdc.
  assert (c = d) as -> by lia. rewrite N.eqb_refl in *. simpl in *.
  now apply IH.
Qed.

Lemma pystr_leb_trans (a b c : pystr) :
  pystr_leb a b = true -> pystr_leb b c = true -> pystr_leb a c = true.
Proof.
  revert b c; induction a as [|x a IH]; intros [|y b] [|z c]; simpl; try easy.
  intros Hab Hbc.
  apply orb_true_iff in Hab as [Hab|Hab]; apply orb_true_iff in Hbc as [Hbc|Hbc].
  - apply N.ltb_lt in Hab, Hbc. apply orb_true_iff. left. apply N.ltb_lt. lia.
  - apply andb_true_iff in Hbc as [Hyz _]. apply N.eqb_eq in Hyz. subst.
    now rewrite Hab.
  - apply andb_true_iff in Hab as [Hxy _]. apply N.eqb_eq in Hxy. subst.
    now rewrite Hbc.
  - apply andb_true_iff in Hab as [Hxy Hab]. apply andb_true_iff in Hbc as [Hyz Hbc].
    apply N.eqb_eq in Hxy, Hyz. subst. rewrite N.eqb_refl, (IH _ _ Hab Hbc).
    apply orb_true_r.
Qed.

Lemma insert_sorted_perm (x : pystr) (l : list pystr) :
  Permutation (x :: l) (insert_sorted x l).
Proof.
  induction l as [|y l IH]; simpl; [reflexivity|].
  destruct (pystr_leb x y); [reflexivity|].
  rewrite perm_swap. now constructor.
Qed.

Lemma insert_sorted_ascending (x : pystr) (l : list pystr) :
  ascending l -> ascending (insert_sorted x l).
Proof.
  unfold ascending. induction l as [|y l IH]; intro Hl; simpl.
  - repeat constructor.
  - inversion Hl as [|? ? Hs Hall]; subst.
    destruct (pystr_leb x y) eqn:Hxy.
    + constructor; [assumption|]. constructor; [assumption|].
      eapply Forall_impl; [|exact Hall]. intros z Hz.
      now apply (pystr_leb_trans x y z).
    + constructor; [now apply IH|].
      apply (Permutation_Forall (insert_sorted_perm x l)).
      constructor; [now apply pystr_leb_total | assumption].
Qed.

(** [sorted] returns the same strings in ascending order. *)
Lemma sorted_perm_ascending (l : list pystr) :
  Permutation l (sorted l) /\ ascending (sorted l).
Proof.
  unfold sorted. induction l as [|x l [IHp IHs]]; simpl.
  - split; [reflexivity|constructor].
  - split; [|now apply insert_sorted_ascending].
    rewrite <- insert_sorted_perm. now constructor.
Qed.

Lemma pystr_eqb_refl (a : pystr) : pystr_eqb a a = true.
Proof. now apply pystr_eqb_eq. Qed.

Lemma dict_get_set_same {V} (k : pystr) (v : V) (d : dict V) :
  dict_get k (dict_set k v d) = Some v.
Proof.
  induction d as [|[k' v'] d IH]; simpl.
  - now rewrite pystr_eqb_refl.
  - destruct (pystr_eqb k k') eqn:E; simpl; [now rewrite pystr_eqb_refl|].
    now rewrite E.
Qed.

Lemma dict_get_set_other {V} (k k' : pystr) (v : V) (d : dict V) :
  pystr_eqb k' k = false -> dict_get k' (dict_set k v d) = dict_get k' d.
Proof.
  intro Hne. induction d as [|[k0 v0] d IH]; simpl.
  - now rewrite Hne.
  - destruct (pystr_eqb k k0) eqn:E; simpl.
    + apply pystr_eqb_eq in E. subst. now rewrite Hne.
    + now rewrite IH.
Qed.

(** A one-character needle is in a text when one of its characters is it. *)
Lemma py_in_char (c : N) (s : pystr) : py_in [c] s = existsb (N.eqb c) s.
Proof.
  induction s as [|d s IH]; simpl; [reflexivity|].
  rewrite IH. now rewrite startswith_nil_r, andb_true_r.
Qed.

Lemma green_in_app (a b : pystr) :
  py_in (u "🟢") (a ++ b) = py_in (u "🟢") a || py_in (u "🟢") b.
Proof.
  change (u "🟢") with [128994]. rewrite !py_in_char. apply existsb_app.
Qed.



(* ================================================================== *)
(** * More on the key-value command box *)
(* ================================================================== *)

Section KeyValueBox.
Context {rt : PyRuntime}.

(** Every path of [_render_redis_query], in terms of the executor. *)
Lemma redis_page_run (w : world) (command : pystr) (t : N) :
  DirectQueryPage._render_redis_query w command t =
  let t1 := t + latency w RedisPing in
  let o := DirectQueryPage._execute_redis_command w command t1 in
  match redis_ping w with
  | Raised _ =>
      mk_outcome (Returned tt) t1
        [Net RedisPing t t1; Ui (st_warning (u "Redis サーバーに接続できません"))]
  | Returned _ =>
      mk_outcome (Returned tt) (finish o)
        (Net RedisPing t t1 :: events o ++ page_display (result o))
  end.
Proof.
  unfold DirectQueryPage._render_redis_query.
  change (RedisManager.check_connection w) with (check_connection w ARedisManager).
  unfold bind at 1. rewrite check_connection_run.
  cbn [result finish events probe_call probe_reply].
  destruct (redis_ping w) as [x|e]; cbn [status_of_reply status]; [|reflexivity].
  change (py_in (u "🟢") (u "🟢 接続OK")) with true. cbv iota zeta.
  unfold try_except, bind.
  destruct (DirectQueryPage._execute_redis_command w command (t + latency w RedisPing))
    as [r f ev].
  cbn [result finish events app]. destruct r as [v|e].
  - destruct v; cbn [result finish events show ret page_display app];
      rewrite ?app_nil_r; reflexivity.
  - reflexivity.
Qed.

(** The members of a set and the keys of a pattern come back in ascending
    order, none lost and none added. *)
Theorem redis_set_and_keys_results_sorted
  (w : world) (command first key : pystr) (rest : list pystr) (t : N) :
  split (strip command) = first :: key :: rest ->
  let o := DirectQueryPage._execute_redis_command w command t in
  (upper first = u "SMEMBERS" ->
   forall members, redis_smembers w key = Returned members ->
   exists l, result o = Returned (PList (map PStr l))
             /\ Permutation members l /\ ascending l)
  /\ (upper first = u "KEYS" ->
      forall found, redis_keys w key = Returned found ->
      exists l, result o = Returned (PList (map PStr l))
                /\ Permutation found l /\ ascending l).
Proof.
  intros Hparts o. subst o.
  rewrite (redis_command_run w command first (key :: rest) t Hparts). cbv zeta.
  split; intros -> l Hl; exists (sorted l).
  - change (pystr_eqb (u "SMEMBERS") (u "KEYS")) with false.
    change (pystr_eqb (u "SMEMBERS") (u "GET")) with false.
    change (pystr_eqb (u "SMEMBERS") (u "HGETALL")) with false.
    change (pystr_eqb (u "SMEMBERS") (u "SMEMBERS")) with true. cbv iota.
    unfold bind, call, ret. cbn [result finish events]. rewrite Hl.
    split; [reflexivity|apply sorted_perm_ascending].
  - change (pystr_eqb (u "KEYS") (u "KEYS")) with true. cbv iota.
    unfold bind, call, ret. cbn [hd result finish events]. rewrite Hl.
    split; [reflexivity|apply sorted_perm_ascending].
Qed.

(** Neither query box lets an exception through: both always return, and an
    exception of the key-value executor ends as one error line after
    whatever the executor did. *)
Theorem query_boxes_never_raise (w : world) (command : pystr) (t : N) :
  result (DirectQueryPage._render_redis_query w command t) = Returned tt
  /\ result (DirectQueryPage._render_postgresql_query w command t) = Returned tt
  /\ (forall x e,
      redis_ping w = Returned x ->
      let o := DirectQueryPage._execute_redis_command w command
                 (t + latency w RedisPing) in
      result o = Raised e ->
      events (DirectQueryPage._render_redis_query w command t)
      = Net RedisPing t (t + latency w RedisPing)
        :: events o ++ [Ui (st_error (u "エラー: " ++ exn_msg e))]).
Proof.
  split; [|split].
  - rewrite redis_page_run. cbv zeta. destruct (redis_ping w); reflexivity.
  - rewrite pg_query_run. reflexivity.
  - intros x e Hping o Hraise. subst o. rewrite redis_page_run. cbv zeta.
    rewrite Hping, Hraise. reflexivity.
Qed.

(** LRANGE with a bound that [int] rejects raises that error before
    anything is sent to the store. *)
Theorem lrange_bad_bound_sends_nothing
  (w : world) (command first key a b : pystr) (rest : list pystr) (t : N) (e : exn) :
  split (strip command) = first :: key :: a :: b :: rest ->
  upper first = u "LRANGE" ->
  py_int a = Raised e \/ ((exists z, py_int a = Returned z) /\ py_int b = Raised e) ->
  DirectQueryPage._execute_redis_command w command t = mk_outcome (Raised e) t [].
Proof.
  intros Hparts Hverb Hbad.
  rewrite (redis_command_run w command first (key :: a :: b :: rest) t Hparts).
  cbv zeta. rewrite Hverb.
  change (pystr_eqb (u "LRANGE") (u "KEYS")) with false.
  change (pystr_eqb (u "LRANGE") (u "GET")) with false.
  change (pystr_eqb (u "LRANGE") (u "HGETALL")) with false.
  change (pystr_eqb (u "LRANGE") (u "SMEMBERS")) with false.
  change (pystr_eqb (u "LRANGE") (u "LRANGE")) with true. cbv iota.
  unfold bind, lift. cbn [result finish events].
  destruct Hbad as [Ha|[[z Ha] Hb]]; rewrite Ha; [reflexivity|].
  cbn [result finish events app]. rewrite Hb. reflexivity.
Qed.
End KeyValueBox.

Section ScriptAndPage.
Context {rt : PyRuntime}.

(** Splits a goal about both boxes by what the store answers, and lets the
    two logs be compared entry by entry. *)
Ltac both_boxes reply :=
  unfold bind, lift, call, ret, show, try_except;
  cbn [Nat.ltb Nat.leb List.length py_index nth_error hd result finish events app];
  try match goal with
      | |- context [reply ?k] => destruct (reply k) as [? | ?]
      end;
  cbn [result finish events app page_display];
  try match goal with
      | |- context [match ?v with Some _ => _ | None => _ end] => destruct v
      end;
  (split; [reflexivity | intros; try reflexivity; try congruence]).

(** The query box of the script and the one of the page send the same
    commands to the store, the page after its probe; and they show the same,
    except for GET and HGETALL, whose results the two display differently. *)
Theorem script_box_sends_what_the_page_sends
  (status : dict pystr) (w : world) (command : pystr) (t : N) (x : unit) :
  py_in (u "🟢") (a_mcp_sample_status.status_get (u "Redis") status) = true ->
  redis_ping w = Returned x ->
  net_calls (events (DirectQueryPage._render_redis_query w command t))
  = RedisPing :: net_calls (events (a_mcp_sample_redis.redis_exec status w command t))
  /\ (verb_of command <> Some (u "GET") ->
      verb_of command <> Some (u "HGETALL") ->
      shown (events (DirectQueryPage._render_redis_query w command t))
      = shown (events (a_mcp_sample_redis.redis_exec status w command t))).
Proof.
  intros Hgreen Hping. rewrite redis_page_run. cbv zeta. rewrite Hping.
  unfold a_mcp_sample_redis.redis_exec. rewrite Hgreen. unfold verb_of.
  destruct (split (strip command)) as [|first args] eqn:Hparts.
  { rewrite (redis_command_run_blank w command _ Hparts). split; reflexivity. }
  rewrite (redis_command_run w command first args _ Hparts). cbv zeta.
  unfold try_except, bind, lift, call, ret, show.
  cbn [py_index nth_error result finish events app].
  destruct (pystr_eqb (upper first) (u "KEYS")) eqn:E1.
  { destruct args as [|pattern args]; both_boxes (redis_keys w). }
  destruct (pystr_eqb (upper first) (u "GET")) eqn:E2.
  { apply pystr_eqb_eq in E2.
    destruct args as [|key args]; both_boxes (redis_get w). }
  destruct (pystr_eqb (upper first) (u "HGETALL")) eqn:E3.
  { apply pystr_eqb_eq in E3.
    destruct args as [|key args]; both_boxes (redis_hgetall w). }
  destruct (pystr_eqb (upper first) (u "SMEMBERS")) eqn:E4.
  { destruct args as [|key args]; both_boxes (redis_smembers w). }
  destruct (pystr_eqb (upper first) (u "LRANGE")) eqn:E5;
    [|split; intros; reflexivity].
  destruct args as [|key [|a [|b args]]]; try (split; intros; reflexivity).
  cbn [List.length Nat.leb py_index nth_error].
  unfold bind, lift, call, ret, show, try_except. cbn [result finish events app].
  destruct (py_int a) as [start|e]; [|split; intros; reflexivity].
  cbn [result finish events app].
  destruct (py_int b) as [stop|e]; [|split; intros; reflexivity].
  cbn [result finish events app].
  destruct (redis_lrange w key start stop); split; intros; reflexivity.
Qed.

(** GET of a key the store does not hold: the page sends the command and
    then shows nothing at all, where the script shows the value [None]. *)
Theorem get_missing_key_shows_nothing
  (status : dict pystr) (w : world) (command first key : pystr)
  (rest : list pystr) (t : N) (x : unit) :
  split (strip command) = first :: key :: rest ->
  upper first = u "GET" ->
  redis_ping w = Returned x ->
  redis_get w key = Returned None ->
  let page := DirectQueryPage._render_redis_query w command t in
  net_calls (events page) = [RedisPing; RedisGet key]
  /\ shown (events page) = []
  /\ (py_in (u "🟢") (a_mcp_sample_status.status_get (u "Redis") status) = true ->
      shown (events (a_mcp_sample_redis.redis_exec status w command t))
      = [st_code PNone]).
Proof.
  intros Hparts Hverb Hping Hget page. subst page.
  rewrite redis_page_run. cbv zeta. rewrite Hping.
  rewrite (redis_command_run w command first (key :: rest) _ Hparts). cbv zeta.
  rewrite Hverb.
  change (pystr_eqb (u "GET") (u "KEYS")) with false.
  change (pystr_eqb (u "GET") (u "GET")) with true. cbv iota.
  unfold bind, call, ret. cbn [result finish events]. rewrite Hget.
  cbn [result finish events app page_display].
  split; [reflexivity|]. split; [reflexivity|].
  intro Hgreen. unfold a_mcp_sample_redis.redis_exec. rewrite Hgreen, Hparts.
  cbv zeta. unfold bind at 1. cbn [lift py_index nth_error result finish events app].
  rewrite Hverb.
  change (pystr_eqb (u "GET") (u "KEYS")) with false.
  change (pystr_eqb (u "GET") (u "GET")) with true. cbv iota.
  unfold try_except, bind, lift, call, show.
  cbn [Nat.ltb Nat.leb List.length py_index nth_error result finish events app].
  rewrite Hget. reflexivity.
Qed.
End ScriptAndPage.

(* ================================================================== *)
(** * The users of the status check *)
(* ================================================================== *)

(** [get_connected_count] makes the four probes and returns the number of
    managers whose probe did not fail. *)
Theorem connected_count_counts_working_probes (w : world) (t : N) :
  result (get_connected_count w t)
  = Returned (List.length (filter (fun m => negb (probe_fails w m)) all_managers))
  /\ net_calls (events (get_connected_count w t))
     = map probe_call all_managers.
Proof.
  unfold get_connected_count, bind. rewrite check_all_servers_run.
  cbn [result finish events ret app].
  unfold ServerStatusManager.get_connected_count, all_managers.
  cbn [filter snd map]. rewrite !connected_status_of_reply.
  destruct (probe_fails w ARedisManager), (probe_fails w APostgreSQLManager),
    (probe_fails w AnElasticsearchManager), (probe_fails w AQdrantManager);
    split; reflexivity.
Qed.

(** [_check_servers] when the status check runs. *)
Lemma check_servers_run (w : world) (t : N) :
  AIChatPage._check_servers None w t =
  let ready := forallb (fun m => negb (probe_fails w m)) all_managers in
  let o := ServerStatusManager.check_all_servers w t in
  mk_outcome (Returned ready) (finish o)
    (events o ++
     if ready then []
     else [Ui (st_warning AIChatPage.servers_missing);
           Ui (st_code (PStr AIChatPage.start_instructions))]).
Proof.
  unfold AIChatPage._check_servers, check_all_servers_cached, bind.
  rewrite check_all_servers_run.
  cbn [result finish events forallb snd all_managers].
  change (py_in (u "🟢") (status (status_of_reply (probe_reply w ARedisManager))))
    with (connected (status_of_reply (probe_reply w ARedisManager))).
  change (py_in (u "🟢") (status (status_of_reply (probe_reply w APostgreSQLManager))))
    with (connected (status_of_reply (probe_reply w APostgreSQLManager))).
  change (py_in (u "🟢") (status (status_of_reply (probe_reply w AnElasticsearchManager))))
    with (connected (status_of_reply (probe_reply w AnElasticsearchManager))).
  change (py_in (u "🟢") (status (status_of_reply (probe_reply w AQdrantManager))))
    with (connected (status_of_reply (probe_reply w AQdrantManager))).
  rewrite !connected_status_of_reply.
  destruct (negb (probe_fails w ARedisManager)
            && (negb (probe_fails w APostgreSQLManager)
                && (negb (probe_fails w AnElasticsearchManager)
                    && (negb (probe_fails w AQdrantManager) && true))));
    reflexivity.
Qed.

(** [_check_servers] when the cache hands out a stored status. *)
Lemma check_servers_run_stored (snapshot : dict conn_status) (w : world) (t : N) :
  AIChatPage._check_servers (Some snapshot) w t =
  let ready := forallb (fun kv => connected (snd kv)) snapshot in
  mk_outcome (Returned ready) t
    (if ready then []
     else [Ui (st_warning AIChatPage.servers_missing);
           Ui (st_code (PStr AIChatPage.start_instructions))]).
Proof.
  unfold AIChatPage._check_servers, check_all_servers_cached, bind, ret, show.
  cbn [result finish events app]. unfold connected. cbv zeta.
  destruct (forallb (fun kv => py_in (u "🟢") (status (snd kv))) snapshot);
    reflexivity.
Qed.

(** A status that a run of [check_all_servers] returned is all green exactly
    when none of the four probes of that run failed. *)
Lemma all_green_iff_no_probe_failed (w0 : world) (t0 : N) (snapshot : dict conn_status) :
  result (ServerStatusManager.check_all_servers w0 t0) = Returned snapshot ->
  forallb (fun kv => connected (snd kv)) snapshot
  = forallb (fun m => negb (probe_fails w0 m)) all_managers.
Proof.
  rewrite check_all_servers_run. cbn [result]. intro H.
  apply (f_equal (fun r => match r with Returned s => s | Raised _ => [] end)) in H.
  cbv beta iota in H. rewrite <- H.
  cbn [forallb snd all_managers]. rewrite !connected_status_of_reply. reflexivity.
Qed.

(** [_check_servers] answers from the status its cached check hands it.
    When the check runs, it makes the four probes and answers [True] exactly
    when none of them fails.  When the cache hands out a stored status, no
    probe is made and no time passes, and the answer is [True] exactly when
    every stored entry is green: it tells whether the probes failed when the
    stored status was taken, not whether they fail now.  In both cases a
    [True] answer shows nothing and a [False] answer comes after the warning
    and the code block with the start instructions. *)
Theorem check_servers_iff_no_probe_fails
  (stored : option (dict conn_status)) (w : world) (t : N) :
  let o := AIChatPage._check_servers stored w t in
  let ready :=
    match stored with
    | None => forallb (fun m => negb (probe_fails w m)) all_managers
    | Some snapshot => forallb (fun kv => connected (snd kv)) snapshot
    end in
  result o = Returned ready
  /\ net_calls (events o)
     = match stored with
       | None => map probe_call all_managers
       | Some _ => []
       end
  /\ shown (events o)
     = (if ready then []
        else [st_warning AIChatPage.servers_missing;
              st_code (PStr AIChatPage.start_instructions)])
  /\ (forall snapshot, stored = Some snapshot -> finish o = t)
  /\ (forall snapshot w0 t0,
      stored = Some snapshot ->
      result (ServerStatusManager.check_all_servers w0 t0) = Returned snapshot ->
      ready = forallb (fun m => negb (probe_fails w0 m)) all_managers).
Proof.
  intros o ready. subst o ready. destruct stored as [snapshot|].
  - rewrite check_servers_run_stored. cbv zeta. cbn [result finish events].
    split; [reflexivity|].
    split; [destruct (forallb (fun kv => connected (snd kv)) snapshot); reflexivity|].
    split; [destruct (forallb (fun kv => connected (snd kv)) snapshot); reflexivity|].
    split; [reflexivity|].
    intros snapshot' w0 t0 Hstored Hrun. injection Hstored as <-.
    exact (all_green_iff_no_probe_failed w0 t0 snapshot Hrun).
  - rewrite check_servers_run. cbv zeta. rewrite check_all_servers_run.
    cbn [result finish events].
    split; [reflexivity|].
    split; [destruct (forallb (fun m => negb (probe_fails w m)) all_managers);
            reflexivity|].
    split; [destruct (forallb (fun m => negb (probe_fails w m)) all_managers);
            reflexivity|].
    split; intros; discriminate.
Qed.

(* ================================================================== *)
(** * The status check of the script *)
(* ================================================================== *)

(** A computation that returns hands its value, its clock and its log to
    what follows. *)
Lemma bind_run {A B} (m : M A) (f : A -> M B) (t t1 : N) (a : A) (ev : list event) :
  m t = mk_outcome (Returned a) t1 ev ->
  bind m f t = mk_outcome (result (f a t1)) (finish (f a t1)) (ev ++ events (f a t1)).
Proof. intro H. unfold bind. rewrite H. reflexivity. Qed.

(** One guarded probe of the script: a ping or a connection attempt. *)
Lemma probe_step_plain {A} (w : world) (c : net_call) (reply : py_result unit)
  (ok : A) (ng : exn -> A) (t : N) :
  try_except (call w c reply ;;; ret ok) (fun e => ret (ng e)) t =
  mk_outcome (Returned match reply with Returned _ => ok | Raised e => ng e end)
    (t + latency w c) [Net c t (t + latency w c)].
Proof. unfold try_except, bind, call, ret. destruct reply; reflexivity. Qed.

(** One guarded probe of the script: an HTTP request. *)
Lemma probe_step_http {A} (w : world) (c : net_call) (reply : py_result http_response)
  (ok : A) (bad : http_response -> A) (ng : exn -> A) (t : N) :
  try_except
    (response <- call w c reply ;;
     if (status_code response =? 200)%Z then ret ok else ret (bad response))
    (fun e => ret (ng e)) t =
  mk_outcome
    (Returned match reply with
              | Returned r => if (status_code r =? 200)%Z then ok else bad r
              | Raised e => ng e
              end)
    (t + latency w c) [Net c t (t + latency w c)].
Proof.
  unfold try_except, bind, call, ret. destruct reply as [r|e]; [|reflexivity].
  cbn [result finish events]. destruct (status_code r =? 200)%Z; reflexivity.
Qed.

(** [check_server_status] never raises: it makes the four probes in turn
    and turns each answer into a status text. *)
Lemma check_server_status_run (w : world) (t : N) :
  let t1 := t + latency w RedisPing in
  let t2 := t1 + latency w PgConnect in
  let t3 := t2 + latency w EsClusterHealth in
  let t4 := t3 + latency w QdrantRoot in
  a_mcp_sample_status.check_server_status w (pg_connect w) t =
  mk_outcome
    (Returned
       [(u "Redis", script_status_of_reply (probe_reply w ARedisManager));
        (u "PostgreSQL", script_status_of_reply (probe_reply w APostgreSQLManager));
        (u "Elasticsearch", script_status_of_reply (probe_reply w AnElasticsearchManager));
        (u "Qdrant", script_status_of_reply (probe_reply w AQdrantManager))])
    t4
    [Net RedisPing t t1; Net PgConnect t1 t2;
     Net EsClusterHealth t2 t3; Net QdrantRoot t3 t4].
Proof.
  cbv zeta. unfold a_mcp_sample_status.check_server_status.
  erewrite bind_run by apply probe_step_plain.
  erewrite bind_run by apply probe_step_plain.
  erewrite bind_run by apply probe_step_http.
  rewrite probe_step_http. cbn [result finish events app].
  unfold probe_reply.
  destruct (redis_ping w) as [x1|e1], (pg_connect w) as [x2|e2];
    (destruct (es_cluster_health w) as [r3|e3];
       [destruct (status_code r3 =? 200)%Z eqn:E3|]);
    (destruct (qdrant_root w) as [r4|e4];
       [destruct (status_code r4 =? 200)%Z eqn:E4|]);
    cbn [script_status_of_reply]; rewrite ?E3, ?E4; reflexivity.
Qed.



(** A failure message with the green mark among its first twenty characters
    passes the green test of the script, which then treats the server as
    connected, while the manager's entry for the same answer is not
    connected. *)
Theorem green_failure_message_fools_the_script (w : world) (t t' : N) (e : exn) :
  redis_ping w = Raised e ->
  py_in (u "🟢") (slice_to 20 (exn_msg e)) = true ->
  exists status snapshot s,
    result (a_mcp_sample_status.check_server_status w (pg_connect w) t) = Returned status
    /\ py_in (u "🟢") (a_mcp_sample_status.status_get (u "Redis") status) = true
    /\ result (ServerStatusManager.check_all_servers w t') = Returned snapshot
    /\ dict_get (u "Redis") snapshot = Some s
    /\ connected s = false.
Proof.
  intros Hping Hgreen.
  pose proof (check_server_status_run w t) as Hs. cbv zeta in Hs.
  pose proof (check_all_servers_run w t') as Hm. cbv zeta in Hm.
  rewrite Hs, Hm. cbn [result]. eexists. eexists. eexists.
  split; [reflexivity|]. split.
  - change (a_mcp_sample_status.status_get (u "Redis") _)
      with (script_status_of_reply (probe_reply w ARedisManager)).
    unfold probe_reply. rewrite Hping. cbn [script_status_of_reply].
    rewrite !green_in_app, Hgreen. reflexivity.
  - split; [reflexivity|]. split; [reflexivity|].
    unfold probe_reply. rewrite Hping. reflexivity.
Qed.

(* ================================================================== *)
(** * The key count of the script and the key-value summary *)
(* ================================================================== *)

(** One turn of the counting loop of the script. *)
Lemma count_loop_cons (w : world) (k : pystr) (items : list pystr) (count : Z) (t : N) :
  a_mcp_sample_status.count_loop w (k :: items) count t =
  let t' := t + latency w RedisScanNext in
  if (1000 <? count + 1)%Z
  then mk_outcome (Returned (inl (str_of_Z (count + 1) ++ u "+")))
         t' [Net RedisScanNext t t']
  else
    let o := a_mcp_sample_status.count_loop w items (count + 1)%Z t' in
    mk_outcome (result o) (finish o) (Net RedisScanNext t t' :: events o).
Proof.
  cbn [a_mcp_sample_status.count_loop]. unfold bind, call. cbn [result finish events].
  destruct (1000 <? count + 1)%Z; reflexivity.
Qed.

(** The two counting loops end alike: with the same text at the limit, with
    the same count at the end of the keys, with the same exception. *)
Lemma count_loop_like_scan_loop (w : world) (items : list pystr) (count : Z) (t t' : N) :
  match result (RedisManager.scan_loop w items count t') with
  | Returned (inl partial) =>
      exists text,
        result (a_mcp_sample_status.count_loop w items count t) = Returned (inl text)
        /\ partial = [(u "key_count", PStr text); (u "status", PStr (u "partial"))]
  | Returned (inr n) =>
      result (a_mcp_sample_status.count_loop w items count t) = Returned (inr n)
  | Raised e =>
      result (a_mcp_sample_status.count_loop w items count t) = Raised e
  end.
Proof.
  revert count t t'. induction items as [|k items IH]; intros count t t'.
  - cbn [RedisManager.scan_loop a_mcp_sample_status.count_loop].
    destruct (redis_scan_end w); reflexivity.
  - rewrite scan_loop_cons, count_loop_cons. cbv zeta.
    destruct (1000 <? count + 1)%Z; cbn [result].
    + eexists. split; reflexivity.
    + apply IH.
Qed.

(** The key count of the script is ["?"] when the ping fails, without any
    key being read; and when the ping succeeds it is the key count of the
    manager's summary, whenever that summary is not an error summary. *)
Theorem script_key_count_is_the_summary_key_count (w : world) (t t' : N) :
  (forall e, redis_ping w = Raised e ->
   result (a_mcp_sample_status.get_redis_key_count w t) = Returned (u "?")
   /\ net_calls (events (a_mcp_sample_status.get_redis_key_count w t)) = [RedisPing])
  /\ (forall x summary,
      redis_ping w = Returned x ->
      result (RedisManager.get_data_summary w t') = Returned summary ->
      dict_get (u "status") summary <> Some (PStr (u "error")) ->
      exists text,
        result (a_mcp_sample_status.get_redis_key_count w t) = Returned text
        /\ dict_get (u "key_count") summary = Some (PStr text)).
Proof.
  split.
  - intros e Hping. unfold a_mcp_sample_status.get_redis_key_count,
      try_except, bind, call. cbn [result finish events]. rewrite Hping.
    split; reflexivity.
  - intros x summary Hping Hsum Hok.
    pose proof (count_loop_like_scan_loop w (redis_scan w) 0
                  (t + latency w RedisPing) t') as Hloops.
    unfold RedisManager.get_data_summary, RedisManager.get_data_summary_try,
      try_except, bind in Hsum.
    unfold a_mcp_sample_status.get_redis_key_count, try_except, bind, call.
    cbn [result finish events]. rewrite Hping. cbn [result finish events].
    destruct (result (RedisManager.scan_loop w (redis_scan w) 0 t'))
      as [[partial|n]|e] eqn:Hscan.
    + destruct Hloops as [text [Hcount ->]]. rewrite Hcount.
      cbn [result ret] in Hsum. injection Hsum as <-.
      exists text. split; reflexivity.
    + rewrite Hloops. cbn [result ret].
      unfold call in Hsum. cbn [result finish events] in Hsum.
      destruct (redis_keys w (u "session:*")) as [sessions|e1];
        cbn [result finish events ret] in Hsum;
        [|injection Hsum as <-; exfalso; apply Hok; reflexivity].
      destruct (redis_keys w (u "counter:*")) as [counters|e2];
        cbn [result finish events ret] in Hsum;
        [|injection Hsum as <-; exfalso; apply Hok; reflexivity].
      injection Hsum as <-. eexists. split; reflexivity.
    + cbn [result ret] in Hsum. injection Hsum as <-.
      exfalso. apply Hok. reflexivity.
Qed.

(* ================================================================== *)
(** * The session state *)
(* ================================================================== *)

Lemma unless_set_keeps (key k : pystr) (value v : pyval) (s : dict pyval) :
  dict_get k s = Some v ->
  dict_get k (MCPSessionManager.unless_set key value s) = Some v.
Proof.
  intro Hk. unfold MCPSessionManager.unless_set.
  destruct (dict_get key s) eqn:Hkey; [assumption|].
  destruct (pystr_eqb k key) eqn:E.
  - apply pystr_eqb_eq in E. subst. congruence.
  - now rewrite dict_get_set_other.
Qed.

Lemma unless_set_sets (key : pystr) (value : pyval) (s : dict pyval) :
  exists v, dict_get key (MCPSessionManager.unless_set key value s) = Some v.
Proof.
  unfold MCPSessionManager.unless_set.
  destruct (dict_get key s) eqn:Hkey; [eexists; exact Hkey|].
  exists value. apply dict_get_set_same.
Qed.

Lemma unless_set_present (key : pystr) (value v : pyval) (s : dict pyval) :
  dict_get key s = Some v -> MCPSessionManager.unless_set key value s = s.
Proof. intro H. unfold MCPSessionManager.unless_set. now rewrite H. Qed.

(** [init_session] keeps every value the session already holds, leaves all
    of its five keys set, and changes nothing when it runs again. *)
Theorem init_session_keeps_and_completes (session_state : dict pyval) :
  let s' := MCPSessionManager.init_session session_state in
  (forall k v, dict_get k session_state = Some v -> dict_get k s' = Some v)
  /\ (forall k, In k MCPSessionManager.session_keys ->
      exists v, dict_get k s' = Some v)
  /\ MCPSessionManager.init_session s' = s'.
Proof.
  intro s'. subst s'.
  assert (Hkeys : forall k, In k MCPSessionManager.session_keys ->
            exists v, dict_get k (MCPSessionManager.init_session session_state) = Some v).
  { intros k Hin. unfold MCPSessionManager.init_session. cbv zeta.
    simpl in Hin. destruct Hin as [<-|[<-|[<-|[<-|[<-|[]]]]]].
    - destruct (unless_set_sets (u "messages") (PList []) session_state) as [v Hv].
      exists v. do 4 apply unless_set_keeps. exact Hv.
    - match goal with
      | |- context [MCPSessionManager.unless_set (u "selected_tab_index") ?x ?s] =>
          destruct (unless_set_sets (u "selected_tab_index") x s) as [v Hv]
      end.
      exists v. do 3 apply unless_set_keeps. exact Hv.
    - match goal with
      | |- context [MCPSessionManager.unless_set (u "auto_process_question") ?x ?s] =>
          destruct (unless_set_sets (u "auto_process_question") x s) as [v Hv]
      end.
      exists v. do 2 apply unless_set_keeps. exact Hv.
    - match goal with
      | |- context [MCPSessionManager.unless_set (u "server_status_cache") ?x ?s] =>
          destruct (unless_set_sets (u "server_status_cache") x s) as [v Hv]
      end.
      exists v. do 1 apply unless_set_keeps. exact Hv.
    - apply unless_set_sets. }
  split; [|split; [exact Hkeys|]].
  - intros k v Hk. unfold MCPSessionManager.init_session. cbv zeta.
    now repeat apply unless_set_keeps.
  - remember (MCPSessionManager.init_session session_state) as s1 eqn:Hs1.
    unfold MCPSessionManager.init_session. cbv zeta.
    destruct (Hkeys (u "messages")) as [v1 H1]; [simpl; tauto|].
    destruct (Hkeys (u "selected_tab_index")) as [v2 H2]; [simpl; tauto|].
    destruct (Hkeys (u "auto_process_question")) as [v3 H3]; [simpl; tauto|].
    destruct (Hkeys (u "server_status_cache")) as [v4 H4]; [simpl; tauto|].
    destruct (Hkeys (u "last_status_check")) as [v5 H5]; [simpl; tauto|].
    rewrite (unless_set_present _ _ _ _ H1), (unless_set_present _ _ _ _ H2),
      (unless_set_present _ _ _ _ H3), (unless_set_present _ _ _ _ H4),
      (unless_set_present _ _ _ _ H5).
    reflexivity.
Qed.

(* ================================================================== *)
(** * The summaries of the relational store and of the vector store *)
(* ================================================================== *)

(** One step of a sequence whose first part is known. *)
Lemma bind_step {A B} (m : M A) (f : A -> M B) (t t1 : N)
  (r : py_result A) (ev : list event) :
  m t = mk_outcome r t1 ev ->
  bind m f t =
  match r with
  | Returned a =>
      mk_outcome (result (f a t1)) (finish (f a t1)) (ev ++ events (f a t1))
  | Raised e => mk_outcome (Raised e) t1 ev
  end.
Proof. intro H. unfold bind. rewrite H. destruct r; reflexivity. Qed.

(** A guarded block whose body is known. *)
Lemma try_step {A} (body : M A) (handler : exn -> M A) (t t1 : N)
  (r : py_result A) (ev : list event) :
  body t = mk_outcome r t1 ev ->
  try_except body handler t =
  match r with
  | Returned a => mk_outcome (Returned a) t1 ev
  | Raised e =>
      mk_outcome (result (handler e t1)) (finish (handler e t1))
        (ev ++ events (handler e t1))
  end.
Proof. intro H. unfold try_except. rewrite H. destruct r; reflexivity. Qed.

(** One counting query: the query is sent, and its first row's count is the
    value, when there is one. *)
Lemma first_count_run (w : world) (sql : pystr) (t : N) :
  PostgreSQLManager.first_count w sql t =
  mk_outcome
    match read_sql w sql with
    | Raised e => Raised e
    | Returned [] =>
        Raised (mk_exn IndexError (u "single positional indexer is out-of-bounds"))
    | Returned (row :: _) =>
        match dict_get (u "count") row with
        | Some v => Returned v
        | None => Raised (mk_exn KeyError (u "count"))
        end
    end
    (t + latency w (PgReadSql sql))
    [Net (PgReadSql sql) t (t + latency w (PgReadSql sql))].
Proof.
  unfold PostgreSQLManager.first_count, bind, call, ret, raise.
  cbn [result finish events].
  destruct (read_sql w sql) as [[|row rows]|e]; cbn [result finish events app];
    try reflexivity.
  destruct (dict_get (u "count") row); reflexivity.
Qed.

(** The [try] block of the relational summary, once the engine is built. *)
Lemma pg_summary_try_run (w : world) (t : N) :
  engine_of_conn_str w = Returned tt ->
  let o := PostgreSQLManager.get_data_summary_try w t in
  result o =
    match first_count_value w count_customers,
          first_count_value w count_orders,
          first_count_value w count_products with
    | Some customers, Some orders, Some products =>
        Returned [(u "table_count", PInt 3);
                  (u "customers", customers);
                  (u "orders", orders);
                  (u "products", products);
                  (u "status", PStr (u "complete"))]
    | _, _, _ => result o
    end
  /\ (match first_count_value w count_customers,
            first_count_value w count_orders,
            first_count_value w count_products with
      | Some _, Some _, Some _ => True
      | _, _, _ => exists e, result o = Raised e
      end)
  /\ net_calls (events o) =
     PgReadSql count_customers ::
     match first_count_value w count_customers with
     | None => []
     | Some _ =>
         PgReadSql count_orders ::
         match first_count_value w count_orders with
         | None => []
         | Some _ => [PgReadSql count_products]
         end
     end.
Proof.
  intros Hengine. cbv zeta.
  unfold PostgreSQLManager.get_data_summary_try, first_count_value,
    count_customers, count_orders, count_products.
  erewrite bind_step by (unfold lift; rewrite Hengine; reflexivity).
  cbn [result finish events app].
  erewrite bind_step by apply first_count_run.
  destruct (read_sql w (u "SELECT COUNT(*) as count FROM customers"))
    as [[|row1 rows1]|e1]; cbn [result finish events app net_calls flat_map];
    [repeat split; eexists; reflexivity| |repeat split; eexists; reflexivity].
  destruct (dict_get (u "count") row1) as [customers|];
    cbn [result finish events app net_calls flat_map];
    [|repeat split; eexists; reflexivity].
  erewrite bind_step by apply first_count_run.
  destruct (read_sql w (u "SELECT COUNT(*) as count FROM orders"))
    as [[|row2 rows2]|e2]; cbn [result finish events app net_calls flat_map];
    [repeat split; eexists; reflexivity| |repeat split; eexists; reflexivity].
  destruct (dict_get (u "count") row2) as [orders|];
    cbn [result finish events app net_calls flat_map];
    [|repeat split; eexists; reflexivity].
  erewrite bind_step by apply first_count_run.
  destruct (read_sql w (u "SELECT COUNT(*) as count FROM products"))
    as [[|row3 rows3]|e3]; cbn [result finish events app net_calls flat_map];
    [repeat split; eexists; reflexivity| |repeat split; eexists; reflexivity].
  destruct (dict_get (u "count") row3) as [products|];
    cbn [result finish events app net_calls flat_map];
    [|repeat split; eexists; reflexivity].
  unfold ret. cbn [result finish events app]. repeat split.
Qed.

Lemma net_calls_app (l l' : list event) :
  net_calls (l ++ l') = net_calls l ++ net_calls l'.
Proof. unfold net_calls. apply flat_map_app. Qed.

(** The relational summary sends its three counting queries in order and
    stops at the first one that gives no count; it is complete, with the
    three counts, when the engine is built and every query gives one, and
    the error summary in every other case. *)
Theorem pg_summary_stops_at_first_failing_count (w : world) (t : N) :
  let o := PostgreSQLManager.get_data_summary w t in
  result o =
    Returned
      match engine_of_conn_str w, first_count_value w count_customers,
            first_count_value w count_orders,
            first_count_value w count_products with
      | Returned _, Some customers, Some orders, Some products =>
          [(u "table_count", PInt 3);
           (u "customers", customers);
           (u "orders", orders);
           (u "products", products);
           (u "status", PStr (u "complete"))]
      | _, _, _, _ =>
          [(u "table_count", PStr (u "?")); (u "status", PStr (u "error"))]
      end
  /\ net_calls (events o) =
     match engine_of_conn_str w with
     | Raised _ => []
     | Returned _ =>
         PgReadSql count_customers ::
         match first_count_value w count_customers with
         | None => []
         | Some _ =>
             PgReadSql count_orders ::
             match first_count_value w count_orders with
             | None => []
             | Some _ => [PgReadSql count_products]
             end
         end
     end.
Proof.
  cbv zeta. unfold PostgreSQLManager.get_data_summary.
  destruct (engine_of_conn_str w) as [[]|e0] eqn:Hengine.
  - destruct (pg_summary_try_run w t Hengine) as [Hres [Hraise Hnet]].
    unfold try_except. cbv zeta.
    destruct (first_count_value w count_customers) as [customers|];
      [destruct (first_count_value w count_orders) as [orders|];
       [destruct (first_count_value w count_products) as [products|]|]|].
    + rewrite Hres. cbn iota. rewrite Hres. split; [reflexivity|exact Hnet].
    + destruct Hraise as [e He]. rewrite He. cbn [result events ret].
      split; [reflexivity|]. rewrite net_calls_app, Hnet, app_nil_r. reflexivity.
    + destruct Hraise as [e He]. rewrite He. cbn [result events ret].
      split; [reflexivity|]. rewrite net_calls_app, Hnet, app_nil_r. reflexivity.
    + destruct Hraise as [e He]. rewrite He. cbn [result events ret].
      split; [reflexivity|]. rewrite net_calls_app, Hnet, app_nil_r. reflexivity.
  - unfold PostgreSQLManager.get_data_summary_try.
    erewrite try_step
      by (erewrite bind_step by (unfold lift; rewrite Hengine; reflexivity);
          reflexivity).
    split; reflexivity.
Qed.

Lemma map_result_length {A B} (f : A -> py_result B) (l : list A) (ys : list B) :
  map_result f l = Returned ys -> List.length ys = List.length l.
Proof.
  revert ys. induction l as [|x l IH]; intros ys H; cbn [map_result] in H.
  - injection H as <-. reflexivity.
  - destruct (f x) as [y|e]; [|discriminate].
    destruct (map_result f l) as [ys'|e]; [|discriminate].
    injection H as <-. cbn [List.length]. f_equal. now apply IH.
Qed.

(** [len(v)] is the number of items [for x in v] runs through. *)
Lemma py_len_is_iter_length (v : pyval) (n : Z) (items : list pyval) :
  py_len v = Returned n -> py_iter v = Returned items ->
  n = Z.of_nat (List.length items).
Proof.
  destruct v; cbn [py_len py_iter]; intros Hn Hi; try discriminate;
    injection Hn as <-; injection Hi as <-; now rewrite ?length_map.
Qed.

Lemma error_summary_not_complete (key : pystr) :
  dict_get (u "status") [(key, PStr (u "?")); (u "status", PStr (u "error"))]
  <> Some (PStr (u "complete")).
Proof.
  unfold dict_get. cbn [find fst snd].
  destruct (pystr_eqb (u "status") key); cbn [option_map snd fst];
    [vm_compute; discriminate|].
  vm_compute. discriminate.
Qed.

(** A complete summary of the vector store lists one name for each
    collection it counts. *)
Theorem qdrant_complete_summary_counts_its_names
  (w : world) (t : N) (summary : dict pyval) :
  result (QdrantManager.get_data_summary w t) = Returned summary ->
  dict_get (u "status") summary = Some (PStr (u "complete")) ->
  exists names,
    dict_get (u "collections") summary = Some (PList names)
    /\ dict_get (u "collection_count") summary
       = Some (PInt (Z.of_nat (List.length names))).
Proof.
  intros Hrun Hstatus.
  unfold QdrantManager.get_data_summary, QdrantManager.get_data_summary_try,
    try_except, bind, lift, call, ret in Hrun.
  cbn [result finish events] in Hrun.
  destruct (qdrant_collections w) as [response|e]; cbn [result finish events] in Hrun;
    [|injection Hrun as <-; now apply error_summary_not_complete in Hstatus].
  destruct (status_code response =? 200)%Z; cbn [result finish events] in Hrun;
    [|injection Hrun as <-; now apply error_summary_not_complete in Hstatus].
  destruct (json response) as [body|e]; cbn [result finish events] in Hrun;
    [|injection Hrun as <-; now apply error_summary_not_complete in Hstatus].
  destruct (py_get body (u "result") (PDict [])) as [res|e];
    cbn [result finish events] in Hrun;
    [|injection Hrun as <-; now apply error_summary_not_complete in Hstatus].
  destruct (py_get res (u "collections") (PList [])) as [collections|e];
    cbn [result finish events] in Hrun;
    [|injection Hrun as <-; now apply error_summary_not_complete in Hstatus].
  destruct (py_len collections) as [n|e] eqn:Hlen; cbn [result finish events] in Hrun;
    [|injection Hrun as <-; now apply error_summary_not_complete in Hstatus].
  destruct (py_iter collections) as [cols|e] eqn:Hiter;
    cbn [result finish events] in Hrun;
    [|injection Hrun as <-; now apply error_summary_not_complete in Hstatus].
  destruct (map_result (fun col => py_getitem col (u "name")) cols) as [names|e] eqn:Hnames;
    cbn [result finish events] in Hrun;
    [|injection Hrun as <-; now apply error_summary_not_complete in Hstatus].
  injection Hrun as <-. exists names.
  rewrite (py_len_is_iter_length _ _ _ Hlen Hiter), <- (map_result_length _ _ _ Hnames).
  split; reflexivity.
Qed.

(* ================================================================== *)
(** * The relational box of the script and the one of the page *)
(* ================================================================== *)

Section RelationalBoxes.
Context {rt : PyRuntime}.

(** The script decides from its cached status where the page probes.  Under
    a green cached status, and with the database answering the probe, the
    two boxes show the same and send the same query, the page after its
    probe; with the database no longer answering, the page sends its probe
    only and shows the warning, while the script still sends every query
    that begins with SELECT. *)
Theorem script_relational_box_trusts_its_cached_status
  (status : dict pystr) (w : world) (sql : pystr) (t : N) :
  py_in (u "🟢") (a_mcp_sample_status.status_get (u "PostgreSQL") status) = true ->
  let page := DirectQueryPage._render_postgresql_query w sql t in
  let script := a_mcp_sample.pg_exec status w sql t in
  (forall x, pg_connect w = Returned x ->
   shown (events page) = shown (events script)
   /\ net_calls (events page) = PgConnect :: net_calls (events script))
  /\ (forall e, pg_connect w = Raised e ->
      events page = [Net PgConnect t (t + latency w PgConnect); Ui pg_unavailable]
      /\ (forall x, starts_with_select sql = true ->
          engine_of_getenv w = Returned x ->
          net_calls (events script) = [PgReadSql sql])).
Proof.
  intros Hgreen page script. subst page script.
  rewrite pg_query_run, sample_pg_run. cbv zeta.
  unfold a_mcp_sample_status.status_get in Hgreen. rewrite Hgreen.
  cbn [events]. split.
  - intros x ->. destruct (starts_with_select sql); [|split; reflexivity].
    destruct (engine_of_getenv w); [|split; reflexivity].
    destruct (read_sql w sql) as [df|e]; [|split; reflexivity].
    destruct (0 <? List.length df)%nat; split; reflexivity.
  - intros e ->. split; [reflexivity|].
    intros x -> ->. destruct (read_sql w sql) as [df|e']; [|reflexivity].
    destruct (0 <? List.length df)%nat; reflexivity.
Qed.
End RelationalBoxes.

(* ================================================================== *)
(** * The properties above on the demo data *)
(* ================================================================== *)

(** A status taken while every server was up is still handed out after the
    relational database has gone down: [_check_servers] then answers [True]
    without a probe, where a fresh check answers [False]. *)
Example check_servers_on_a_stored_status :
  exists snapshot,
    result (ServerStatusManager.check_all_servers demo_world 0) = Returned snapshot
    /\ AIChatPage._check_servers (Some snapshot) pg_down 10
       = mk_outcome (Returned true) 10 []
    /\ result (AIChatPage._check_servers None pg_down 10) = Returned false.
Proof.
  eexists. split; [reflexivity|]. split.
  - rewrite check_servers_run_stored. reflexivity.
  - rewrite check_servers_run. reflexivity.
Qed.

Lemma redis_set_and_keys_results_sorted_witness :
  split (strip (u "smembers categories:all")) = [u "smembers"; u "categories:all"]
  /\ exists l,
       result (@DirectQueryPage._execute_redis_command ascii_runtime demo_world
                 (u "smembers categories:all") 0)
       = Returned (PList (map PStr l))
       /\ Permutation [u "Sports"; u "Books"] l /\ ascending l.
Proof.
  split; [reflexivity|].
  pose proof (@redis_set_and_keys_results_sorted ascii_runtime demo_world
                (u "smembers categories:all") (u "smembers") (u "categories:all")
                [] 0 eq_refl) as H.
  cbv zeta in H. destruct H as [H _]. exact (H eq_refl _ eq_refl).
Defined.

Lemma lrange_bad_bound_sends_nothing_witness :
  split (strip (u "LRANGE search:recent x 1"))
  = [u "LRANGE"; u "search:recent"; u "x"; u "1"]
  /\ @DirectQueryPage._execute_redis_command ascii_runtime demo_world
       (u "LRANGE search:recent x 1") 0
     = mk_outcome
         (Raised (mk_exn ValueError (u "invalid literal for int() with base 10")))
         0 [].
Proof.
  split; [reflexivity|].
  apply (@lrange_bad_bound_sends_nothing ascii_runtime demo_world
           (u "LRANGE search:recent x 1") (u "LRANGE") (u "search:recent")
           (u "x") (u "1") [] 0); [reflexivity|reflexivity|left; reflexivity].
Defined.

Lemma script_box_sends_what_the_page_sends_witness :
  net_calls (events (@DirectQueryPage._render_redis_query ascii_runtime demo_world
                       (u "KEYS *") 0))
  = RedisPing
    :: net_calls (events (@a_mcp_sample_redis.redis_exec ascii_runtime
                            [(u "Redis", u "🟢 接続OK")] demo_world (u "KEYS *") 0)).
Proof.
  apply (@script_box_sends_what_the_page_sends ascii_runtime
           [(u "Redis", u "🟢 接続OK")] demo_world (u "KEYS *") 0 tt);
    reflexivity.
Defined.

Lemma get_missing_key_shows_nothing_witness :
  shown (events (@DirectQueryPage._render_redis_query ascii_runtime demo_world
                   (u "GET nokey") 0)) = []
  /\ shown (events (@a_mcp_sample_redis.redis_exec ascii_runtime
                      [(u "Redis", u "🟢 接続OK")] demo_world (u "GET nokey") 0))
     = [st_code PNone].
Proof.
  pose proof (@get_missing_key_shows_nothing ascii_runtime
                [(u "Redis", u "🟢 接続OK")] demo_world (u "GET nokey")
                (u "GET") (u "nokey") [] 0 tt eq_refl eq_refl eq_refl eq_refl) as H.
  cbv zeta in H. destruct H as [_ [Hpage Hscript]].
  split; [exact Hpage|exact (Hscript eq_refl)].
Defined.


Lemma green_failure_message_fools_the_script_witness :
  exists status snapshot s,
    result (a_mcp_sample_status.check_server_status redis_green_failure
              (pg_connect redis_green_failure) 0) = Returned status
    /\ py_in (u "🟢") (a_mcp_sample_status.status_get (u "Redis") status) = true
    /\ result (ServerStatusManager.check_all_servers redis_green_failure 0)
       = Returned snapshot
    /\ dict_get (u "Redis") snapshot = Some s
    /\ connected s = false.
Proof.
  apply (green_failure_message_fools_the_script redis_green_failure 0 0
           (mk_exn LibraryError (u "🟢 not really"))); reflexivity.
Defined.

Lemma qdrant_complete_summary_counts_its_names_witness :
  result (QdrantManager.get_data_summary
            (with_collections [u "articles"; u "faq"] demo_world) 0)
  = Returned [(u "collection_count", PInt 2);
              (u "collections", PList [PStr (u "articles"); PStr (u "faq")]);
              (u "status", PStr (u "complete"))]
  /\ exists names,
       dict_get (u "collections")
         [(u "collection_count", PInt 2);
          (u "collections", PList [PStr (u "articles"); PStr (u "faq")]);
          (u "status", PStr (u "complete"))]
       = Some (PList names)
       /\ dict_get (u "collection_count")
            [(u "collection_count", PInt 2);
             (u "collections", PList [PStr (u "articles"); PStr (u "faq")]);
             (u "status", PStr (u "complete"))]
          = Some (PInt (Z.of_nat (List.length names))).
Proof.
  split; [reflexivity|].
  apply (qdrant_complete_summary_counts_its_names
           (with_collections [u "articles"; u "faq"] demo_world) 0);
    reflexivity.
Defined.

Lemma script_relational_box_trusts_its_cached_status_witness :
  py_in (u "🟢")
    (a_mcp_sample_status.status_get (u "PostgreSQL")
       [(u "PostgreSQL", u "🟢 接続OK")]) = true
  /\ events (@DirectQueryPage._render_postgresql_query ascii_runtime pg_down
               (u "select 1") 0)
     = [Net PgConnect 0 (0 + latency pg_down PgConnect); Ui pg_unavailable]
  /\ net_calls (events (@a_mcp_sample.pg_exec ascii_runtime
                          [(u "PostgreSQL", u "🟢 接続OK")] pg_down (u "select 1") 0))
     = [PgReadSql (u "select 1")].
Proof.
  split; [reflexivity|].
  pose proof (@script_relational_box_trusts_its_cached_status ascii_runtime
                [(u "PostgreSQL", u "🟢 接続OK")] pg_down (u "select 1") 0
                eq_refl) as H.
  cbv zeta in H. destruct H as [_ H].
  destruct (H refused eq_refl) as [Hpage Hscript].
  split; [exact Hpage|exact (Hscript tt eq_refl eq_refl)].
Defined.
